(** * SciVal LLM data layer: query functions and invocation boundary

    A shallow embedding of [src/queries.ts], [src/data/mockData.ts],
    [src/types.ts] and the handlers of [src/index.ts], with the properties
    of the specification stated and proved over it.

    JavaScript numbers are IEEE 754 binary64 values: they are modelled by
    Rocq's primitive floats, whose operations are the same binary64
    operations (round to nearest, ties to even).  JavaScript strings are
    modelled by [string]; a character stands for the UTF-16 code unit of
    the same number, so the model covers the strings whose code units are
    below 256. *)

From Stdlib Require Import List String Ascii Bool Arith ZArith Lia.
From Stdlib Require Import Floats Permutation Sorted.
Import ListNotations.

(* Decimal literals such as 2.34 denote the nearest binary64 value, as in
   JavaScript. *)
Set Warnings "-inexact-float".
Set Warnings "-register-all".

Open Scope string_scope.
Open Scope list_scope.

(* ================================================================== *)
(** * JavaScript run-time model *)
(* ================================================================== *)

Module JS.

(** [x === 0] on numbers: [+0] and [-0] are equal, [NaN] is not. *)
Definition isZero (f : float) : bool := (f =? 0)%float.

(** ToBoolean on a number: [0], [-0] and [NaN] are falsy. *)
Definition numberTruthy (f : float) : bool :=
  negb (isZero f) && negb (PrimFloat.is_nan f).

(** The names every plain object inherits from [Object.prototype]. *)
Definition objectPrototypeKeys : list string :=
  [ "constructor"; "__defineGetter__"; "__defineSetter__"; "hasOwnProperty";
    "__lookupGetter__"; "__lookupSetter__"; "isPrototypeOf";
    "propertyIsEnumerable"; "toString"; "valueOf"; "__proto__";
    "toLocaleString" ].

(** The outcome of the property read [obj[key]] on an object literal:
    an own property, a member inherited from [Object.prototype] (a
    built-in function or, for [__proto__], the prototype object), or
    [undefined]. *)
Inductive PropertyRead (A : Type) : Type :=
| Own (a : A)
| Inherited (key : string)
| Undefined.
Arguments Own {A} a.
Arguments Inherited {A} key.
Arguments Undefined {A}.

Fixpoint ownProperty {A : Type} (obj : list (string * A)) (key : string)
  : option A :=
  match obj with
  | [] => None
  | (k, v) :: rest => if String.eqb k key then Some v else ownProperty rest key
  end.

Definition inPrototype (key : string) : bool :=
  existsb (String.eqb key) objectPrototypeKeys.

Definition getProperty {A : Type} (obj : list (string * A)) (key : string)
  : PropertyRead A :=
  match ownProperty obj key with
  | Some v => Own v
  | None => if inPrototype key then Inherited key else Undefined
  end.

(** [v === undefined] *)
Definition isUndefined {A : Type} (v : PropertyRead A) : bool :=
  match v with Undefined => true | _ => false end.

(** Exceptions a handler can observe. *)
Inductive Exception : Type :=
| TypeError (message : string).

(** A computation that returns or throws. *)
Inductive Completion (A : Type) : Type :=
| Returned (a : A)
| Thrown (e : Exception).
Arguments Returned {A} a.
Arguments Thrown {A} e.

(** ToIntegerOrInfinity, as [Array.prototype.slice] applies it to its
    arguments. *)
Inductive IntegerOrInfinity : Type :=
| Finite (z : Z)
| PlusInfinity
| MinusInfinity.

Definition toIntegerOrInfinity (f : float) : IntegerOrInfinity :=
  match Prim2SF f with
  | S754_nan => Finite 0
  | S754_zero _ => Finite 0
  | S754_infinity false => PlusInfinity
  | S754_infinity true => MinusInfinity
  | S754_finite s m e =>
      let magnitude :=
        match e with
        | Zneg p => Z.shiftr (Zpos m) (Zpos p)
        | _ => Z.shiftl (Zpos m) e
        end in
      Finite (if s then Z.opp magnitude else magnitude)
  end.

(** [arr.slice(0, end)]: a negative [end] counts from the end of the
    array, and the final index is clamped to the array. *)
Definition sliceEnd (len : nat) (end_ : float) : nat :=
  match toIntegerOrInfinity end_ with
  | MinusInfinity => 0
  | PlusInfinity => len
  | Finite z =>
      if (z <? 0)%Z then Z.to_nat (Z.max (Z.of_nat len + z) 0)
      else Nat.min (Z.to_nat z) len
  end.

Definition sliceFromStart {A : Type} (arr : list A) (end_ : float) : list A :=
  firstn (sliceEnd (List.length arr) end_) arr.

(** [String.prototype.toLowerCase] on one code unit below 256: the
    letters A-Z and the Latin-1 capitals U+00C0-U+00DE (the
    multiplication sign U+00D7 excepted) move up by 32. *)
Definition toLowerCaseUnit (c : ascii) : ascii :=
  let n := nat_of_ascii c in
  if (((65 <=? n) && (n <=? 90)) ||
      ((192 <=? n) && (n <=? 222) && negb (n =? 215)))%nat
  then ascii_of_nat (n + 32)
  else c.

Fixpoint toLowerCase (s : string) : string :=
  match s with
  | EmptyString => EmptyString
  | String c rest => String (toLowerCaseUnit c) (toLowerCase rest)
  end.

(** [s.includes(search)] *)
Fixpoint includes (s search : string) : bool :=
  String.prefix search s ||
  match s with
  | EmptyString => false
  | String _ rest => includes rest search
  end.

(** [Array.prototype.sort(comparefn)]: the comparator's [NaN] counts as
    [+0], and [x] goes after [y] exactly when the comparison is
    positive.  The sort is stable; for a consistent comparator every
    stable sort yields the same array, here computed by insertion. *)
Section Sort.
Context {A : Type}.
Variable comparefn : A -> A -> float.

Definition sortCompare (x y : A) : float :=
  let v := comparefn x y in
  if PrimFloat.is_nan v then 0%float else v.

Definition goesAfter (x y : A) : bool := (0 <? sortCompare x y)%float.

Fixpoint insertSorted (x : A) (sorted : list A) : list A :=
  match sorted with
  | [] => [x]
  | y :: rest =>
      if goesAfter x y then y :: insertSorted x rest else x :: y :: rest
  end.

Definition sort (arr : list A) : list A := fold_right insertSorted [] arr.
End Sort.

(** [arr.map(callbackfn)] with a callback that can throw: the elements
    are visited in order and the first exception ends the call. *)
Fixpoint arrayMap {A B : Type} (callbackfn : A -> Completion B) (arr : list A)
  : Completion (list B) :=
  match arr with
  | [] => Returned []
  | x :: rest =>
      match callbackfn x with
      | Thrown e => Thrown e
      | Returned y =>
          match arrayMap callbackfn rest with
          | Thrown e => Thrown e
          | Returned ys => Returned (y :: ys)
          end
      end
  end.

Local Open Scope string_scope.

(** [Number::toString] in radix 10.  A finite number other than zero is
    written with the digits of the shortest decimal [s * 10^q] that
    rounds back to it, the closest such decimal when there are several,
    and laid out with or without an exponent by its magnitude. *)
Fixpoint digitsOf (fuel : nat) (n : Z) (acc : string) : string :=
  match fuel with
  | O => acc
  | S fuel =>
      let acc := String (ascii_of_nat (48 + Z.to_nat (n mod 10))) acc in
      if (n <? 10)%Z then acc else digitsOf fuel (n / 10)%Z acc
  end.

(** The decimal digits of a natural number. *)
Definition decimalDigits (n : Z) : string :=
  digitsOf (S (Z.to_nat (Z.log2 n))) n "".

Fixpoint zeroDigits (n : nat) : string :=
  match n with
  | O => ""
  | S n => String "0" (zeroDigits n)
  end.

(** Among the integers [s] with [low <= s * 10^q <= high], the one for
    which [s * 10^q] is closest to [value] (the even one of two), where
    [low], [value] and [high] are [lowN], [valueN] and [highN] times
    [2^e]; the two ends count when [inclusive]. *)
Definition closestMultiple (inclusive : bool) (lowN valueN highN e q : Z)
  : option Z :=
  let two := if (0 <=? e)%Z then (2 ^ e)%Z else 1%Z in
  let den := if (0 <=? e)%Z then 1%Z else (2 ^ (- e))%Z in
  let ten := if (0 <=? q)%Z then 1%Z else (10 ^ (- q))%Z in
  let unit := (den * (if (0 <=? q)%Z then 10 ^ q else 1))%Z in
  let a := (lowN * two * ten)%Z in
  let b := (highN * two * ten)%Z in
  let t := (valueN * two * ten)%Z in
  let smin := if inclusive then (- ((- a) / unit))%Z else (a / unit + 1)%Z in
  let smax := if inclusive then (b / unit)%Z else (- ((- b) / unit) - 1)%Z in
  if (smin <=? smax)%Z then
    let s0 := (t / unit)%Z in
    let r := (t mod unit)%Z in
    let nearest :=
      if (2 * r <? unit)%Z then s0
      else if (unit <? 2 * r)%Z then (s0 + 1)%Z
      else if Z.even s0 then s0 else (s0 + 1)%Z in
    Some (Z.max smin (Z.min smax nearest))
  else None.

(** The first power [q], counting down, at which a multiple of [10^q]
    lies within the bounds. *)
Fixpoint shortestFrom (fuel : nat) (inclusive : bool)
    (lowN valueN highN e q : Z) : Z * Z :=
  match closestMultiple inclusive lowN valueN highN e q with
  | Some s => (s, q)
  | None =>
      match fuel with
      | O => (valueN, e)
      | S fuel => shortestFrom fuel inclusive lowN valueN highN e (q - 1)
      end
  end.

(** The decimal for the binary64 number [m * 2^e].  The decimals that
    round to it lie between the midpoints to its two neighbours (the
    lower neighbour is half as far when [m] is a power of two), the
    midpoints included when [m] is even.  The search starts at a power
    of ten above the number. *)
Definition shortestDecimal (m : positive) (e : Z) : Z * Z :=
  let boundary := Pos.eqb m (2 ^ 52) && (-1074 <? e)%Z in
  let valueN := (4 * Z.pos m)%Z in
  let lowN := if boundary then (valueN - 1)%Z else (valueN - 2)%Z in
  let highN := (valueN + 2)%Z in
  let bits := (e + 54)%Z in
  let start :=
    if (0 <=? bits)%Z then (bits * 302 / 1000 + 1)%Z
    else (- (- bits * 301 / 1000))%Z in
  shortestFrom 60 (Z.even (Z.pos m)) lowN valueN highN (e - 2) start.

(** The digits [digits] of a decimal whose point comes after [n] of
    them: plain notation for [-6 < n <= 21], exponent notation
    otherwise. *)
Definition formatNumber (digits : string) (n : Z) : string :=
  let k := Z.of_nat (String.length digits) in
  if ((k <=? n) && (n <=? 21))%Z then
    digits ++ zeroDigits (Z.to_nat (n - k))
  else if ((0 <? n) && (n <=? 21))%Z then
    substring 0 (Z.to_nat n) digits ++ "."
    ++ substring (Z.to_nat n) (Z.to_nat (k - n)) digits
  else if ((-6 <? n) && (n <=? 0))%Z then
    "0." ++ zeroDigits (Z.to_nat (- n)) ++ digits
  else
    let e := (n - 1)%Z in
    let exponent := (if (e <? 0)%Z then "-" else "+") ++ decimalDigits (Z.abs e) in
    if (k =? 1)%Z then digits ++ "e" ++ exponent
    else substring 0 1 digits ++ "."
         ++ substring 1 (Z.to_nat (k - 1)) digits ++ "e" ++ exponent.

Definition finiteToString (m : positive) (e : Z) : string :=
  let '(s, q) := shortestDecimal m e in
  let digits := decimalDigits s in
  formatNumber digits (Z.of_nat (String.length digits) + q).

Definition numberToString (f : float) : string :=
  match Prim2SF f with
  | S754_nan => "NaN"
  | S754_zero _ => "0"
  | S754_infinity s => if s then "-Infinity" else "Infinity"
  | S754_finite s m e => (if s then "-" else "") ++ finiteToString m e
  end.

End JS.
Import JS.

(* ================================================================== *)
(** * Data model ([src/types.ts]) *)
(* ================================================================== *)

Inductive EntityType : Type := author | institution | journal.

(** A metric is a number, or (for [outputsInTopCitationPercentiles]) a
    nested object of numbers. *)
Inductive MetricValue : Type :=
| MNumber (f : float)
| MNested (fields : list (string * float)).

Definition Metrics : Type := list (string * MetricValue).

(** The fields that differ between [Author], [Institution] and [Journal]. *)
Inductive EntityDetails : Type :=
| AuthorDetails (affiliation : option string)
| InstitutionDetails (country : string)
| JournalDetails (publisher : string).

Record Entity : Type := mkEntity {
  id : string;
  name : string;
  variant : EntityDetails;
  metrics : Metrics
}.

Record TrendPoint : Type := mkTrendPoint {
  year : float;
  value : float
}.

(** What a metric read [metrics[metric]] can evaluate to. *)
Definition JsValue : Type := PropertyRead MetricValue.

Record ComparedEntity : Type := mkCompared {
  compared_id : string;
  compared_name : string;
  compared_value : JsValue
}.

Record Comparison : Type := mkComparison {
  entityA : ComparedEntity;
  entityB : ComparedEntity;
  difference : float;
  percentDifference : float
}.

(** What [getTrend] hands back besides [null]: a series, or the inherited
    member found when [entityId] names a property of [Object.prototype]. *)
Inductive TrendValue : Type :=
| Series (points : list TrendPoint)
| Builtin (key : string).

(** The module-level constants of [src/data/mockData.ts]. *)
Record Dataset : Type := mkDataset {
  mockAuthors : list Entity;
  mockInstitutions : list Entity;
  mockJournals : list Entity;
  mockTrends : list (string * list TrendPoint)
}.

(** ToNumber on a value read from a metrics object: an object or a
    function converts to [NaN], and so does [undefined]. *)
Definition toNumber (v : JsValue) : float :=
  match v with
  | Own (MNumber f) => f
  | _ => nan
  end.

(** ToBoolean on such a value: objects and functions are truthy. *)
Definition truthy (v : JsValue) : bool :=
  match v with
  | Own (MNumber f) => numberTruthy f
  | Own (MNested _) => true
  | Inherited _ => true
  | Undefined => false
  end.

(** [v !== 0] *)
Definition strictNotZero (v : JsValue) : bool :=
  match v with
  | Own (MNumber f) => negb (isZero f)
  | _ => true
  end.

(* ================================================================== *)
(** * Query functions ([src/queries.ts]) *)
(* ================================================================== *)

Section Queries.

Variable ds : Dataset.

(** The array each [switch (entityType)] selects. *)
Definition collection (entityType : EntityType) : list Entity :=
  match entityType with
  | author => mockAuthors ds
  | institution => mockInstitutions ds
  | journal => mockJournals ds
  end.

(** [arr.find(a => a.id === entityId) || null] *)
Definition getEntity (entityType : EntityType) (entityId : string)
  : option Entity :=
  find (fun a => String.eqb (id a) entityId) (collection entityType).

Definition getMetrics (entityType : EntityType) (entityId : string)
    (metricNames : option (list string)) : option Metrics :=
  match getEntity entityType entityId with
  | None => None
  | Some entity => Some (metrics entity)
  end.

Definition compareEntities (entityType : EntityType)
    (entityIdA entityIdB metric : string) : option Comparison :=
  match getEntity entityType entityIdA, getEntity entityType entityIdB with
  | Some entityA, Some entityB =>
      let valueA := getProperty (metrics entityA) metric in
      let valueB := getProperty (metrics entityB) metric in
      if isUndefined valueA || isUndefined valueB then None
      else
        let difference := (toNumber valueA - toNumber valueB)%float in
        let percentDifference :=
          if strictNotZero valueB
          then (((toNumber valueA - toNumber valueB) / toNumber valueB) * 100)%float
          else 0%float in
        Some {| entityA := mkCompared (id entityA) (name entityA) valueA;
                entityB := mkCompared (id entityB) (name entityB) valueB;
                difference := difference;
                percentDifference := percentDifference |}
  | _, _ => None
  end.

(** [arr.filter(e => e.name.toLowerCase().includes(queryLower)).slice(0, limit)] *)
Definition searchEntities (entityType : EntityType) (query : string)
    (limit : float) : list Entity :=
  let queryLower := toLowerCase query in
  let results :=
    filter (fun a => includes (toLowerCase (name a)) queryLower)
           (collection entityType) in
  sliceFromStart results limit.

(** [if (bound) { filtered = filtered.filter(keep) }]: the bound is
    tested for truthiness, and [filter] exists on arrays only. *)
Definition filterIfGiven (bound : option float)
    (keep : float -> TrendPoint -> bool) (filtered : TrendValue)
  : Completion TrendValue :=
  match bound with
  | Some b =>
      if numberTruthy b then
        match filtered with
        | Series points => Returned (Series (filter (keep b) points))
        | Builtin _ => Thrown (TypeError "filtered.filter is not a function")
        end
      else Returned filtered
  | None => Returned filtered
  end.

(** The two [if] statements of [getTrend], run one after the other on
    [filtered]. *)
Definition filterByYears (startYear endYear : option float)
    (filtered : TrendValue) : Completion TrendValue :=
  match filterIfGiven startYear (fun b point => (b <=? year point)%float) filtered with
  | Thrown e => Thrown e
  | Returned filtered =>
      filterIfGiven endYear (fun b point => (year point <=? b)%float) filtered
  end.

(** [!trendData] holds for [undefined] only: an array is truthy, empty
    or not, and so is an inherited member. *)
Definition getTrend (entityId metric : string) (startYear endYear : option float)
  : Completion (option TrendValue) :=
  let trendData :=
    match getProperty (mockTrends ds) entityId with
    | Own points => Some (Series points)
    | Inherited key => Some (Builtin key)
    | Undefined => None
    end in
  match trendData with
  | None => Returned None
  | Some filtered =>
      match filterByYears startYear endYear filtered with
      | Thrown e => Thrown e
      | Returned filtered => Returned (Some filtered)
      end
  end.

(** [metrics[metric] || 0] *)
Definition metricOrZero (e : Entity) (metric : string) : JsValue :=
  let v := getProperty (metrics e) metric in
  if truthy v then v else Own (MNumber 0%float).

(** The comparator handed to [entities.sort]. *)
Definition byMetricDescending (metric : string) (a b : Entity) : float :=
  let valueA := metricOrZero a metric in
  let valueB := metricOrZero b metric in
  (toNumber valueB - toNumber valueA)%float.

Definition getTopEntities (entityType : EntityType) (metric : string)
    (limit : float) : list Entity :=
  let entities := collection entityType in
  let entities := sort (byMetricDescending metric) entities in
  sliceFromStart entities limit.

End Queries.

(* ================================================================== *)
(** * The fixture ([src/data/mockData.ts]) *)
(* ================================================================== *)

Module MockData.

Definition authorMetrics (publications citations hIndex fwci top1 top5 top10 : float)
  : Metrics :=
  [ ("publications", MNumber publications);
    ("citations", MNumber citations);
    ("hIndex", MNumber hIndex);
    ("fieldWeightedCitationImpact", MNumber fwci);
    ("outputsInTopCitationPercentiles",
      MNested [("top1", top1); ("top5", top5); ("top10", top10)]) ].

Definition institutionMetrics (publications citations collaborationRate fwci acc : float)
  : Metrics :=
  [ ("publications", MNumber publications);
    ("citations", MNumber citations);
    ("collaborationRate", MNumber collaborationRate);
    ("fieldWeightedCitationImpact", MNumber fwci);
    ("academicCorporateCollaboration", MNumber acc) ].

Definition journalMetrics (citesPerDoc sjr snip percentCited : float) : Metrics :=
  [ ("citesPerDoc", MNumber citesPerDoc);
    ("sjr", MNumber sjr);
    ("snip", MNumber snip);
    ("percentCited", MNumber percentCited) ].

Definition auth_001 : Entity :=
  mkEntity "auth_001" "Dr. Sarah Chen" (AuthorDetails (Some "MIT"))
    (authorMetrics 156 4823 42 2.34 12 28 45).
Definition auth_002 : Entity :=
  mkEntity "auth_002" "Prof. James Anderson"
    (AuthorDetails (Some "Stanford University"))
    (authorMetrics 203 8912 58 3.12 18 42 67).
Definition auth_003 : Entity :=
  mkEntity "auth_003" "Dr. Maria Rodriguez"
    (AuthorDetails (Some "Cambridge University"))
    (authorMetrics 89 2134 31 1.87 5 15 23).

Definition inst_001 : Entity :=
  mkEntity "inst_001" "Massachusetts Institute of Technology"
    (InstitutionDetails "United States")
    (institutionMetrics 12456 342891 0.68 2.89 0.23).
Definition inst_002 : Entity :=
  mkEntity "inst_002" "University of Oxford"
    (InstitutionDetails "United Kingdom")
    (institutionMetrics 15234 412567 0.72 3.12 0.18).
Definition inst_003 : Entity :=
  mkEntity "inst_003" "ETH Zurich"
    (InstitutionDetails "Switzerland")
    (institutionMetrics 8923 198234 0.65 2.56 0.31).

Definition jour_001 : Entity :=
  mkEntity "jour_001" "Nature" (JournalDetails "Springer Nature")
    (journalMetrics 42.3 14.23 8.92 94.2).
Definition jour_002 : Entity :=
  mkEntity "jour_002" "Science" (JournalDetails "AAAS")
    (journalMetrics 38.7 13.45 7.81 92.8).
Definition jour_003 : Entity :=
  mkEntity "jour_003" "Cell" (JournalDetails "Elsevier")
    (journalMetrics 35.2 12.89 7.23 91.5).

Definition series (v2019 v2020 v2021 v2022 v2023 : float) : list TrendPoint :=
  [ mkTrendPoint 2019 v2019; mkTrendPoint 2020 v2020; mkTrendPoint 2021 v2021;
    mkTrendPoint 2022 v2022; mkTrendPoint 2023 v2023 ].

Definition data : Dataset :=
  {| mockAuthors := [auth_001; auth_002; auth_003];
     mockInstitutions := [inst_001; inst_002; inst_003];
     mockJournals := [jour_001; jour_002; jour_003];
     mockTrends :=
       [ ("auth_001", series 12 15 18 22 19);
         ("inst_001", series 11234 11892 12156 12389 12456);
         ("jour_001", series 892 923 945 978 1012) ] |}.

End MockData.

(* ================================================================== *)
(** * Schema validation (the part of zod the registry uses) *)
(* ================================================================== *)

(** A value of a request body; [JUndefined] is what reading a missing
    key yields.  The fields of a [JObject] are the own properties of the
    parsed body (distinct keys). *)
Inductive json : Type :=
| JUndefined
| JNull
| JBool (b : bool)
| JNumber (f : float)
| JString (s : string)
| JArray (items : list json)
| JObject (fields : list (string * json)).

Module Zod.

Inductive ZodType : Type :=
| ZodString (description : option string)
| ZodNumber (description : option string)
| ZodBoolean (description : option string)
| ZodEnum (options : list string) (description : option string)
| ZodArray (element : ZodType) (description : option string)
| ZodOptional (inner : ZodType) (description : option string)
| ZodDefault (inner : ZodType) (defaultValue : json) (description : option string)
| ZodObject (shape : list (string * ZodType)) (description : option string).

(** zod's [getParsedType]. *)
Inductive ParsedType : Type :=
| type_undefined | type_null | type_boolean | type_number | type_nan
| type_string | type_array | type_object.

Definition getParsedType (data : json) : ParsedType :=
  match data with
  | JUndefined => type_undefined
  | JNull => type_null
  | JBool _ => type_boolean
  | JNumber f => if PrimFloat.is_nan f then type_nan else type_number
  | JString _ => type_string
  | JArray _ => type_array
  | JObject _ => type_object
  end.

Inductive Expected : Type :=
| expect_string | expect_number | expect_boolean | expect_array | expect_object
| expect_one_of (options : list string).

Inductive IssueCode : Type :=
| invalid_type (expected : Expected) (received : ParsedType)
| invalid_enum_value (options : list string) (received : string).

Inductive PathSegment : Type :=
| Key (key : string)
| Index (index : nat).

Record ZodIssue : Type := mkIssue {
  code : IssueCode;
  path : list PathSegment
}.

Inductive ParseResult : Type :=
| Valid (data : json)
| Invalid (issues : list ZodIssue).

Definition underPath (seg : PathSegment) (issue : ZodIssue) : ZodIssue :=
  mkIssue (code issue) (seg :: path issue).

Definition typeIssue (expected : Expected) (data : json) : ParseResult :=
  Invalid [mkIssue (invalid_type expected (getParsedType data)) []].

(** The items of an array, each parsed by [parseItem] under its index. *)
Fixpoint parseItems (parseItem : json -> ParseResult) (index : nat)
    (items : list json) : list json * list ZodIssue :=
  match items with
  | [] => ([], [])
  | item :: rest =>
      let '(values, issues) := parseItems parseItem (S index) rest in
      match parseItem item with
      | Valid v => (v :: values, issues)
      | Invalid here => (values, map (underPath (Index index)) here ++ issues)
      end
  end.

(** The fields of an object, each parsed by [parseField] from the
    property of its name: every field is visited and the issues of all
    of them are collected; keys outside the shape are stripped and a
    key whose value is [undefined] is left out. *)
Section ParseShape.
Variable parseField : ZodType -> json -> ParseResult.
Variable fields : list (string * json).

Fixpoint parseShape (shape : list (string * ZodType))
  : list (string * json) * list ZodIssue :=
  match shape with
  | [] => ([], [])
  | (key, fieldSchema) :: rest =>
      let '(values, issues) := parseShape rest in
      let input :=
        match ownProperty fields key with
        | Some v => v
        | None => JUndefined
        end in
      match parseField fieldSchema input with
      | Valid JUndefined => (values, issues)
      | Valid v => ((key, v) :: values, issues)
      | Invalid here => (values, map (underPath (Key key)) here ++ issues)
      end
  end.
End ParseShape.

(** [schema.parse(data)] *)
Fixpoint parse (schema : ZodType) (data : json) {struct schema} : ParseResult :=
  match schema with
  | ZodString _ =>
      match data with
      | JString _ => Valid data
      | _ => typeIssue expect_string data
      end
  | ZodNumber _ =>
      match data with
      | JNumber f => if PrimFloat.is_nan f then typeIssue expect_number data else Valid data
      | _ => typeIssue expect_number data
      end
  | ZodBoolean _ =>
      match data with
      | JBool _ => Valid data
      | _ => typeIssue expect_boolean data
      end
  | ZodEnum options _ =>
      match data with
      | JString s =>
          if existsb (String.eqb s) options then Valid data
          else Invalid [mkIssue (invalid_enum_value options s) []]
      | _ => typeIssue (expect_one_of options) data
      end
  | ZodArray element _ =>
      match data with
      | JArray items =>
          let '(values, issues) := parseItems (parse element) 0 items in
          match issues with
          | [] => Valid (JArray values)
          | _ => Invalid issues
          end
      | _ => typeIssue expect_array data
      end
  | ZodOptional inner _ =>
      match data with
      | JUndefined => Valid JUndefined
      | _ => parse inner data
      end
  | ZodDefault inner defaultValue _ =>
      match data with
      | JUndefined => parse inner defaultValue
      | _ => parse inner data
      end
  | ZodObject shape _ =>
      match data with
      | JObject fields =>
          let '(values, issues) := parseShape parse fields shape in
          match issues with
          | [] => Valid (JObject values)
          | _ => Invalid issues
          end
      | _ => typeIssue expect_object data
      end
  end.

(** [schema.isOptional()] is [schema.safeParse(undefined).success]. *)
Definition isOptional (schema : ZodType) : bool :=
  match parse schema JUndefined with
  | Valid _ => true
  | Invalid _ => false
  end.

End Zod.
Import Zod.

(* ================================================================== *)
(** * The registry ([queryFunctions] in [src/queries.ts]) *)
(* ================================================================== *)

Definition entityTypeOptions : list string := ["author"; "institution"; "journal"].

Definition getEntitySchema : ZodType :=
  ZodObject
    [ ("entityType", ZodEnum entityTypeOptions (Some "Type of entity to retrieve"));
      ("entityId", ZodString (Some "Unique identifier for the entity")) ] None.

Definition searchEntitiesSchema : ZodType :=
  ZodObject
    [ ("entityType", ZodEnum entityTypeOptions (Some "Type of entity to search"));
      ("query", ZodString (Some "Search query string"));
      ("limit", ZodDefault (ZodOptional (ZodNumber None) None) (JNumber 10)
                  (Some "Maximum number of results")) ] None.

Definition getMetricsSchema : ZodType :=
  ZodObject
    [ ("entityType", ZodEnum entityTypeOptions (Some "Type of entity"));
      ("entityId", ZodString (Some "Entity identifier"));
      ("metricNames", ZodOptional (ZodArray (ZodString None) None)
                  (Some "Specific metrics to retrieve (all if not specified)")) ] None.

(** The quotation mark, which the description of [metric] puts around
    its three example names. *)
Definition quotationMark : string := String (ascii_of_nat 34) EmptyString.

Definition quoted (s : string) : string :=
  (quotationMark ++ s ++ quotationMark)%string.

Definition compareEntitiesSchema : ZodType :=
  ZodObject
    [ ("entityType", ZodEnum entityTypeOptions (Some "Type of entities to compare"));
      ("entityIdA", ZodString (Some "First entity identifier"));
      ("entityIdB", ZodString (Some "Second entity identifier"));
      ("metric",
        ZodString
          (Some ("Metric to compare (e.g., " ++ quoted "publications" ++ ", "
                 ++ quoted "citations" ++ ", " ++ quoted "hIndex" ++ ")")%string)) ]
    None.

Definition getTrendSchema : ZodType :=
  ZodObject
    [ ("entityId", ZodString (Some "Entity identifier"));
      ("metric", ZodString (Some "Metric to track over time"));
      ("startYear", ZodOptional (ZodNumber None)
                  (Some "Start year (defaults to earliest available)"));
      ("endYear", ZodOptional (ZodNumber None)
                  (Some "End year (defaults to latest available)")) ] None.

Definition getTopEntitiesSchema : ZodType :=
  ZodObject
    [ ("entityType", ZodEnum entityTypeOptions (Some "Type of entity"));
      ("metric", ZodString (Some "Metric to rank by"));
      ("limit", ZodDefault (ZodOptional (ZodNumber None) None) (JNumber 10)
                  (Some "Number of top entities to return")) ] None.

(** What the six functions return. *)
Inductive QueryResult : Type :=
| EntityResult (entity : option Entity)
| EntitiesResult (entities : list Entity)
| MetricsResult (metrics : option Metrics)
| ComparisonResult (comparison : option Comparison)
| TrendResult (trend : option TrendValue).

(** Reading the validated parameters at the type [z.infer] gives them. *)
Module Params.

Definition field (params : json) (key : string) : json :=
  match params with
  | JObject fields =>
      match ownProperty fields key with
      | Some v => v
      | None => JUndefined
      end
  | _ => JUndefined
  end.

Definition asEntityType (v : json) : option EntityType :=
  match v with
  | JString s =>
      if String.eqb s "author" then Some author
      else if String.eqb s "institution" then Some institution
      else if String.eqb s "journal" then Some journal
      else None
  | _ => None
  end.

Definition asString (v : json) : option string :=
  match v with JString s => Some s | _ => None end.

Definition asNumber (v : json) : option float :=
  match v with JNumber f => Some f | _ => None end.

Definition asOptionalNumber (v : json) : option (option float) :=
  match v with
  | JUndefined => Some None
  | JNumber f => Some (Some f)
  | _ => None
  end.

Fixpoint asStrings (items : list json) : option (list string) :=
  match items with
  | [] => Some []
  | JString s :: rest =>
      match asStrings rest with
      | Some l => Some (s :: l)
      | None => None
      end
  | _ :: _ => None
  end.

Definition asOptionalStrings (v : json) : option (option (list string)) :=
  match v with
  | JUndefined => Some None
  | JArray items =>
      match asStrings items with
      | Some l => Some (Some l)
      | None => None
      end
  | _ => None
  end.

End Params.

Record QueryConfig : Type := mkConfig {
  function : json -> Completion QueryResult;
  schema : ZodType;
  description : string
}.

Section Registry.

Variable ds : Dataset.

(** [validatedParams as any]: the handlers pass the validated object at
    the parameter type of the function.  Parameters that are not of
    that type do not come out of [schema.parse] (lemma
    [validated_params_are_typed]); for them the model stops with a
    [TypeError]. *)
Definition illTyped : Completion QueryResult :=
  Thrown (TypeError "parameters are not of the declared type").

Definition callGetEntity (params : json) : Completion QueryResult :=
  match Params.asEntityType (Params.field params "entityType"),
        Params.asString (Params.field params "entityId") with
  | Some entityType, Some entityId =>
      Returned (EntityResult (getEntity ds entityType entityId))
  | _, _ => illTyped
  end.

Definition callSearchEntities (params : json) : Completion QueryResult :=
  match Params.asEntityType (Params.field params "entityType"),
        Params.asString (Params.field params "query"),
        Params.asNumber (Params.field params "limit") with
  | Some entityType, Some query, Some limit =>
      Returned (EntitiesResult (searchEntities ds entityType query limit))
  | _, _, _ => illTyped
  end.

Definition callGetMetrics (params : json) : Completion QueryResult :=
  match Params.asEntityType (Params.field params "entityType"),
        Params.asString (Params.field params "entityId"),
        Params.asOptionalStrings (Params.field params "metricNames") with
  | Some entityType, Some entityId, Some metricNames =>
      Returned (MetricsResult (getMetrics ds entityType entityId metricNames))
  | _, _, _ => illTyped
  end.

Definition callCompareEntities (params : json) : Completion QueryResult :=
  match Params.asEntityType (Params.field params "entityType"),
        Params.asString (Params.field params "entityIdA"),
        Params.asString (Params.field params "entityIdB"),
        Params.asString (Params.field params "metric") with
  | Some entityType, Some entityIdA, Some entityIdB, Some metric =>
      Returned (ComparisonResult
                  (compareEntities ds entityType entityIdA entityIdB metric))
  | _, _, _, _ => illTyped
  end.

Definition callGetTrend (params : json) : Completion QueryResult :=
  match Params.asString (Params.field params "entityId"),
        Params.asString (Params.field params "metric"),
        Params.asOptionalNumber (Params.field params "startYear"),
        Params.asOptionalNumber (Params.field params "endYear") with
  | Some entityId, Some metric, Some startYear, Some endYear =>
      match getTrend ds entityId metric startYear endYear with
      | Returned trend => Returned (TrendResult trend)
      | Thrown e => Thrown e
      end
  | _, _, _, _ => illTyped
  end.

Definition callGetTopEntities (params : json) : Completion QueryResult :=
  match Params.asEntityType (Params.field params "entityType"),
        Params.asString (Params.field params "metric"),
        Params.asNumber (Params.field params "limit") with
  | Some entityType, Some metric, Some limit =>
      Returned (EntitiesResult (getTopEntities ds entityType metric limit))
  | _, _, _ => illTyped
  end.

(** The object literal [queryFunctions], in the order of its keys. *)
Definition queryFunctions : list (string * QueryConfig) :=
  [ ("getEntity",
      mkConfig callGetEntity getEntitySchema
        "Retrieve a specific entity (author, institution, or journal) by its unique identifier");
    ("searchEntities",
      mkConfig callSearchEntities searchEntitiesSchema
        "Search for entities by name or keywords");
    ("getMetrics",
      mkConfig callGetMetrics getMetricsSchema
        "Get all metrics for a specific entity");
    ("compareEntities",
      mkConfig callCompareEntities compareEntitiesSchema
        "Compare two entities on a specific metric and get the difference");
    ("getTrend",
      mkConfig callGetTrend getTrendSchema
        "Get trend data for an entity metric over a time period");
    ("getTopEntities",
      mkConfig callGetTopEntities getTopEntitiesSchema
        "Get the top-performing entities ranked by a specific metric") ].

End Registry.

(* ================================================================== *)
(** * The invocation boundary ([src/index.ts]) *)
(* ================================================================== *)

(** The object [zodToJsonSchema] builds.  [SchemaWithDefault base d] is
    the spread [{ ...base, default: d }]. *)
Inductive JsonSchema : Type :=
| SchemaObject (properties : list (string * JsonSchema)) (required : option (list string))
| SchemaString (description : option string)
| SchemaNumber (description : option string)
| SchemaArray (items : JsonSchema) (description : option string)
| SchemaEnum (enum : list string) (description : option string)
| SchemaWithDefault (base : JsonSchema) (default : json)
| SchemaUnknown.

Fixpoint zodToJsonSchema (schema : ZodType) : JsonSchema :=
  match schema with
  | ZodObject shape _ =>
      let properties := map (fun entry => (fst entry, zodToJsonSchema (snd entry))) shape in
      let required :=
        map fst (filter (fun entry => negb (isOptional (snd entry))) shape) in
      SchemaObject properties
        (match required with [] => None | _ => Some required end)
  | ZodString description => SchemaString description
  | ZodNumber description => SchemaNumber description
  | ZodArray element description =>
      SchemaArray (zodToJsonSchema element) description
  | ZodEnum options description => SchemaEnum options description
  | ZodOptional inner _ => zodToJsonSchema inner
  | ZodDefault inner defaultValue _ =>
      SchemaWithDefault (zodToJsonSchema inner) defaultValue
  | ZodBoolean _ => SchemaUnknown
  end.

Record FunctionDefinition : Type := mkFunctionDefinition {
  fn_name : string;
  fn_description : string;
  fn_parameters : JsonSchema
}.

(** A JSON reply: the status and the keys of the body that are set. *)
Record Response : Type := mkResponse {
  status : nat;
  body_result : option QueryResult;
  body_error : option string;
  body_details : option (list ZodIssue)
}.

(** One element of [results] in the reply of [/api/batch]. *)
Record BatchItem : Type := mkBatchItem {
  success : option bool;
  result : option QueryResult;
  error : option string;
  details : option (list ZodIssue)
}.

(** A query as a client writes it, the shape of the elements of
    [queries] and of [suggestedQueries]: a function name and the raw
    parameters ([JUndefined] when [params] is missing). *)
Record BatchQuery : Type := mkBatchQuery {
  functionName : string;
  params : json
}.

(** ToPropertyKey on a value of a request body, which for these values
    is ToString.  An array is joined with commas, [null] and [undefined]
    elements giving the empty string.  A plain object answers
    [[object Object]] through [Object.prototype.toString], unless it has
    a [toString] member of its own: a value of a body is not callable,
    so that member is passed over, [valueOf] yields no primitive either,
    and the conversion throws. *)
Fixpoint toPropertyKey (v : json) : Completion string :=
  match v with
  | JUndefined => Returned "undefined"
  | JNull => Returned "null"
  | JBool b => Returned (if b then "true" else "false")
  | JNumber f => Returned (numberToString f)
  | JString s => Returned s
  | JArray items =>
      (fix join (items : list json) : Completion string :=
         match items with
         | [] => Returned ""
         | item :: rest =>
             let element :=
               match item with
               | JUndefined | JNull => Returned ""
               | _ => toPropertyKey item
               end in
             match element with
             | Thrown e => Thrown e
             | Returned s =>
                 match rest with
                 | [] => Returned s
                 | _ =>
                     match join rest with
                     | Thrown e => Thrown e
                     | Returned t => Returned (s ++ "," ++ t)%string
                     end
                 end
             end
         end) items
  | JObject fields =>
      match ownProperty fields "toString" with
      | Some _ => Thrown (TypeError "Cannot convert object to primitive value")
      | None => Returned "[object Object]"
      end
  end.

Section Boundary.

Variable ds : Dataset.

(** [GET /api/functions] *)
Definition apiFunctions : list FunctionDefinition :=
  map (fun entry =>
         let '(name, config) := entry in
         mkFunctionDefinition name (description config)
           (zodToJsonSchema (schema config)))
      (queryFunctions ds).

Definition notFoundMessage (functionName : string) : string :=
  "Function '" ++ functionName ++ "' not found".

(** How the [try] block ends: with the result, or in the [catch] clause
    with a [ZodError] or with another exception. *)
Inductive Attempt : Type :=
| Succeeded (result : QueryResult)
| ZodError (issues : list ZodIssue)
| OtherError (e : Exception).

(** [queryConfig.schema.parse(params)] then
    [queryConfig.function(validatedParams)], inside the [try] block.
    An inherited member of [Object.prototype] has no [schema], and
    reading [parse] off [undefined] throws. *)
Definition attempt (queryConfig : PropertyRead QueryConfig) (params : json)
  : Attempt :=
  match queryConfig with
  | Own config =>
      match parse (schema config) params with
      | Invalid issues => ZodError issues
      | Valid validatedParams =>
          match function config validatedParams with
          | Returned result => Succeeded result
          | Thrown e => OtherError e
          end
      end
  | _ => OtherError (TypeError "Cannot read properties of undefined (reading 'parse')")
  end.

(** [POST /api/query/:functionName] *)
Definition apiQuery (functionName : string) (params : json) : Response :=
  let queryConfig := getProperty (queryFunctions ds) functionName in
  if isUndefined queryConfig then
    mkResponse 404 None (Some (notFoundMessage functionName)) None
  else
    match attempt queryConfig params with
    | Succeeded result => mkResponse 200 (Some result) None None
    | ZodError issues => mkResponse 400 None (Some "Invalid parameters") (Some issues)
    | OtherError _ => mkResponse 500 None (Some "Internal server error") None
    end.

(** The rest of the callback of [queries.map] in [POST /api/batch], from
    the lookup on: [functionName] is the key the member of that name was
    converted to, [params] the member of that name. *)
Definition batchItemFor (functionName : string) (params : json) : BatchItem :=
  let queryConfig := getProperty (queryFunctions ds) functionName in
  if isUndefined queryConfig then
    mkBatchItem None None (Some (notFoundMessage functionName)) None
  else
    match attempt queryConfig params with
    | Succeeded result => mkBatchItem (Some true) (Some result) None None
    | ZodError issues =>
        mkBatchItem (Some false) None (Some "Invalid parameters") (Some issues)
    | OtherError _ => mkBatchItem (Some false) None (Some "Execution failed") None
    end.

(** The callback of [queries.map] on one element of the array.  The
    destructuring [const { functionName, params } = query] throws on
    [null] and [undefined] and reads [undefined] off any other value
    that has no such member; the lookup [queryFunctions[functionName]]
    converts [functionName] to a key.  Both stand before the [try]
    block: what they throw leaves the callback. *)
Definition batchItem (query : json) : Completion BatchItem :=
  match query with
  | JNull =>
      Thrown (TypeError
        "Cannot destructure property 'functionName' of 'query' as it is null.")
  | JUndefined =>
      Thrown (TypeError
        "Cannot destructure property 'functionName' of 'query' as it is undefined.")
  | _ =>
      let functionName := Params.field query "functionName" in
      let params := Params.field query "params" in
      match toPropertyKey functionName with
      | Thrown e => Thrown e
      | Returned key => Returned (batchItemFor key params)
      end
  end.

(** The replies of [POST /api/batch]. *)
Inductive BatchResponse : Type :=
| BatchResults (results : list BatchItem)
| BatchRejected (status : nat) (error : string).

(** [POST /api/batch] on the [queries] member of the body.  An exception
    of the callback ends [queries.map] and leaves the handler, which
    catches nothing. *)
Definition apiBatch (queries : json) : Completion BatchResponse :=
  match queries with
  | JArray items =>
      match arrayMap batchItem items with
      | Thrown e => Thrown e
      | Returned results => Returned (BatchResults results)
      end
  | _ => Returned (BatchRejected 400 "queries must be an array")
  end.

End Boundary.

(* ================================================================== *)
(** * The conversational endpoint ([POST /api/chat] in [src/index.ts]) *)
(* ================================================================== *)

(** ToBoolean on a value of the request body. *)
Definition jsonTruthy (v : json) : bool :=
  match v with
  | JUndefined => false
  | JNull => false
  | JBool b => b
  | JNumber f => numberTruthy f
  | JString s => negb (String.eqb s "")
  | JArray _ => true
  | JObject _ => true
  end.

(** The object [response] of the handler; an element of
    [suggestedQueries] has the shape of a batch query. *)
Record ChatReply : Type := mkChatReply {
  message : string;
  suggestedQueries : list BatchQuery
}.

Inductive ChatResponse : Type :=
| ChatRejected (status : nat) (error : string)
| ChatAnswered (reply : ChatReply).

Definition newline : string := String (ascii_of_nat 10) EmptyString.

Definition compareSuggestion : ChatReply :=
  mkChatReply
    "To compare authors, I can use the compareEntities function. Which two authors would you like to compare, and on which metric?"
    [ mkBatchQuery "compareEntities"
        (JObject [ ("entityType", JString "author");
                   ("entityIdA", JString "auth_001");
                   ("entityIdB", JString "auth_002");
                   ("metric", JString "hIndex") ]) ].

Definition searchSuggestion : ChatReply :=
  mkChatReply
    "I can search for authors, institutions, or journals. What would you like to search for?"
    [ mkBatchQuery "searchEntities"
        (JObject [ ("entityType", JString "author");
                   ("query", JString "chen");
                   ("limit", JNumber 5) ]) ].

Definition topSuggestion : ChatReply :=
  mkChatReply
    "I can find top entities ranked by various metrics. What type of entity and metric are you interested in?"
    [ mkBatchQuery "getTopEntities"
        (JObject [ ("entityType", JString "author");
                   ("metric", JString "citations");
                   ("limit", JNumber 5) ]) ].

Definition trendSuggestion : ChatReply :=
  mkChatReply
    "I can show trends over time for any entity metric. Which entity and metric would you like to see?"
    [ mkBatchQuery "getTrend"
        (JObject [ ("entityId", JString "auth_001");
                   ("metric", JString "publications") ]) ].

Definition helpReply : ChatReply :=
  mkChatReply
    ("I can help you explore SciVal data. Try asking about:" ++ newline
     ++ "- Comparing authors/institutions/journals" ++ newline
     ++ "- Searching for entities" ++ newline
     ++ "- Finding top performers" ++ newline
     ++ "- Analyzing trends over time")
    [].

(** The [if]/[else if] chain over [lowerMessage]. *)
Definition chatReply (lowerMessage : string) : ChatReply :=
  if includes lowerMessage "compare" && includes lowerMessage "author"
  then compareSuggestion
  else if includes lowerMessage "search" then searchSuggestion
  else if includes lowerMessage "top" then topSuggestion
  else if includes lowerMessage "trend" then trendSuggestion
  else helpReply.

(** [POST /api/chat] on the [message] of the body.  Only a string has
    [toLowerCase]: on any other truthy value the call throws, which the
    handler does not catch. *)
Definition apiChat (body_message : json) : Completion ChatResponse :=
  if negb (jsonTruthy body_message) then
    Returned (ChatRejected 400 "message is required")
  else
    match body_message with
    | JString s =>
        let lowerMessage := toLowerCase s in
        Returned (ChatAnswered (chatReply lowerMessage))
    | _ => Thrown (TypeError "message.toLowerCase is not a function")
    end.

(* ================================================================== *)
(** * Vocabulary of the specification *)
(* ================================================================== *)

Definition entityTypeName (entityType : EntityType) : string :=
  match entityType with
  | author => "author"
  | institution => "institution"
  | journal => "journal"
  end.

(** The validated object [{ entityType, entityId }]. *)
Definition getEntityParams (entityType : EntityType) (entityId : string) : json :=
  JObject [ ("entityType", JString (entityTypeName entityType));
            ("entityId", JString entityId) ].

(** [v == 0]: only a number can equal [0]; an object or a function
    converts to [NaN] first. *)
Definition equalsZero (v : JsValue) : bool :=
  match v with
  | Own (MNumber f) => isZero f
  | _ => false
  end.

(** The comparison built from two found entities whose metric is defined. *)
Definition comparisonOf (a b : Entity) (metric : string) : Comparison :=
  let valueA := getProperty (metrics a) metric in
  let valueB := getProperty (metrics b) metric in
  {| entityA := mkCompared (id a) (name a) valueA;
     entityB := mkCompared (id b) (name b) valueB;
     difference := (toNumber valueA - toNumber valueB)%float;
     percentDifference :=
       if equalsZero valueB then 0%float
       else (((toNumber valueA - toNumber valueB) / toNumber valueB) * 100)%float |}.

(** [metric] is a present key of the metrics object: a key of its own,
    which the names every object inherits are not. *)
Definition presentKey (m : Metrics) (metric : string) : bool :=
  match ownProperty m metric with
  | Some _ => true
  | None => false
  end.

(** [compareEntities] as the specification words it: absent when an
    entity is not found or [metric] is not a present key on both, and
    the comparison of the two values otherwise. *)
Definition compareEntities_spec (ds : Dataset) (entityType : EntityType)
    (entityIdA entityIdB metric : string) : option Comparison :=
  match getEntity ds entityType entityIdA, getEntity ds entityType entityIdB with
  | Some a, Some b =>
      if presentKey (metrics a) metric && presentKey (metrics b) metric
      then Some (comparisonOf a b metric)
      else None
  | _, _ => None
  end.

(** A two-author collection in which the second author has no citations:
    the percentage of A against B is [0] while that of B against A is
    [-100], so [percentDifference] is not antisymmetric. *)
Definition zeroCitationsData : Dataset :=
  {| mockAuthors :=
       [ mkEntity "a" "A" (AuthorDetails None) [("citations", MNumber 5)];
         mkEntity "b" "B" (AuthorDetails None) [("citations", MNumber 0)] ];
     mockInstitutions := [];
     mockJournals := [];
     mockTrends := [] |}.

(** The bounds as the specification reads them: inclusive, each applied
    on its own, an omitted bound leaving its side open. *)
Definition withinBounds (startYear endYear : option float) (point : TrendPoint)
  : bool :=
  match startYear with
  | Some s => (s <=? year point)%float
  | None => true
  end &&
  match endYear with
  | Some e => (year point <=? e)%float
  | None => true
  end.

(** A bound the code acts upon: omitted, or a truthy number. *)
Definition actedUpon (bound : option float) : Prop :=
  match bound with
  | Some b => numberTruthy b = true
  | None => True
  end.

(** Two characters are the same letter up to case when they have the same
    lower-case form; two strings differ only in letter case when they do
    so position by position. *)
Definition sameLetter (c d : ascii) : Prop :=
  toLowerCaseUnit c = toLowerCaseUnit d.

Fixpoint differOnlyInCase (s t : string) : Prop :=
  match s, t with
  | EmptyString, EmptyString => True
  | String c s', String d t' => sameLetter c d /\ differOnlyInCase s' t'
  | _, _ => False
  end.

(** [name] contains [query] as a case-insensitive substring. *)
Definition containsIgnoringCase (name query : string) : Prop :=
  exists pre mid post,
    name = (pre ++ mid ++ post)%string /\ differOnlyInCase mid query.

(** The entities of the collection whose name matches, in the order of
    the collection. *)
Definition matching (ds : Dataset) (entityType : EntityType) (query : string)
  : list Entity :=
  filter (fun e => includes (toLowerCase (name e)) (toLowerCase query))
         (collection ds entityType).

(** The value [getTopEntities] ranks by: the metric's number, [0] for a
    missing key; a nested object or an inherited member has no number. *)
Definition rankingKey (metric : string) (e : Entity) : float :=
  match getProperty (metrics e) metric with
  | Undefined => 0%float
  | v => toNumber v
  end.

(** [x] comes before [y] in [l]. *)
Definition precedes {A : Type} (l : list A) (x y : A) : Prop :=
  exists i j, i < j /\ nth_error l i = Some x /\ nth_error l j = Some y.

(** [sorted] is [original] in descending order of [key], elements that
    [key] does not separate keeping their original order. *)
Definition rankedDescending {A : Type} (key : A -> float)
    (original sorted : list A) : Prop :=
  Permutation original sorted /\
  forall i j x y,
    i < j -> nth_error sorted i = Some x -> nth_error sorted j = Some y ->
    (key y <? key x)%float = true \/
    ((key x <? key y)%float = false /\ precedes original x y).

(** The metric names that are own keys of some entity of the fixture. *)
Definition fixtureMetricNames : list string :=
  [ "publications"; "citations"; "hIndex"; "fieldWeightedCitationImpact";
    "outputsInTopCitationPercentiles"; "collaborationRate";
    "academicCorporateCollaboration"; "citesPerDoc"; "sjr"; "snip";
    "percentCited" ].

(** What an invocation comes to, whichever envelope carries it. *)
Inductive Outcome : Type :=
| Success (result : QueryResult)
| FunctionNotFound (message : string)
| InvalidParameters (issues : list ZodIssue)
| ExecutionFailure.

(** Reading the single-invoke envelope: the status tells the four apart. *)
Definition outcomeOfResponse (r : Response) : option Outcome :=
  match status r with
  | 200 => option_map Success (body_result r)
  | 404 => option_map FunctionNotFound (body_error r)
  | 400 => option_map InvalidParameters (body_details r)
  | 500 => Some ExecutionFailure
  | _ => None
  end.

(** Reading a batch item: [success: true] with the result, or an [error]
    with [success: false] (and [details] for a validation failure), or,
    for an unknown function, an [error] alone. *)
Definition outcomeOfItem (item : BatchItem) : option Outcome :=
  match success item, error item with
  | Some true, None => option_map Success (result item)
  | Some false, Some _ =>
      match details item with
      | Some issues => Some (InvalidParameters issues)
      | None => Some ExecutionFailure
      end
  | None, Some message => Some (FunctionNotFound message)
  | _, _ => None
  end.

(** An item tagged as a success, [{ success: true, result }], or as a
    failure, [{ success: false, error, ... }]. *)
Definition taggedSuccess (item : BatchItem) : Prop :=
  success item = Some true /\ result item <> None /\ error item = None.

Definition taggedFailure (item : BatchItem) : Prop :=
  success item = Some false /\ result item = None /\ error item <> None.

(** The element of [queries] that stands for a query. *)
Definition queryObject (query : BatchQuery) : json :=
  JObject [ ("functionName", JString (functionName query));
            ("params", params query) ].

(** The registered schema marks the field optional ([.optional()]
    somewhere among its wrappers). *)
Fixpoint markedOptional (fieldSchema : ZodType) : bool :=
  match fieldSchema with
  | ZodOptional _ _ => true
  | ZodDefault inner _ _ => markedOptional inner
  | _ => false
  end.

(** The registered schema gives the field a default ([.default(v)]
    somewhere among its wrappers). *)
Fixpoint givenDefault (fieldSchema : ZodType) : bool :=
  match fieldSchema with
  | ZodDefault _ _ _ => true
  | ZodOptional inner _ => givenDefault inner
  | _ => false
  end.

Definition shapeOf (objectSchema : ZodType) : list (string * ZodType) :=
  match objectSchema with
  | ZodObject shape _ => shape
  | _ => []
  end.

Definition requiredOf (rendered : JsonSchema) : list string :=
  match rendered with
  | SchemaObject _ (Some required) => required
  | _ => []
  end.

Definition propertiesOf (rendered : JsonSchema) : list (string * JsonSchema) :=
  match rendered with
  | SchemaObject properties _ => properties
  | _ => []
  end.

(** A bound as [getTrend] takes it: a falsy number counts as omitted. *)
Definition effectiveBound (bound : option float) : option float :=
  match bound with
  | Some b => if numberTruthy b then Some b else None
  | None => None
  end.

(** A number that is neither [NaN] nor an infinity. *)
Definition finiteNumber (f : float) : bool :=
  match Prim2SF f with
  | S754_zero _ => true
  | S754_finite _ _ _ => true
  | _ => false
  end.

(** The keys of the registry. *)
Definition registryNames : list string :=
  [ "getEntity"; "searchEntities"; "getMetrics"; "compareEntities";
    "getTrend"; "getTopEntities" ].

(** The request bodies a typed caller sends: a field that is not given is
    left out of the object. *)
Definition optionalField (key : string) (v : option json)
  : list (string * json) :=
  match v with
  | Some j => [(key, j)]
  | None => []
  end.

Definition searchEntitiesParams (entityType : EntityType) (query : string)
    (limit : option float) : json :=
  JObject ([ ("entityType", JString (entityTypeName entityType));
             ("query", JString query) ]
           ++ optionalField "limit" (option_map JNumber limit)).

Definition getMetricsParams (entityType : EntityType) (entityId : string)
    (metricNames : option (list string)) : json :=
  JObject ([ ("entityType", JString (entityTypeName entityType));
             ("entityId", JString entityId) ]
           ++ optionalField "metricNames"
                (option_map (fun l => JArray (map JString l)) metricNames)).

Definition compareEntitiesParams (entityType : EntityType)
    (entityIdA entityIdB metric : string) : json :=
  JObject [ ("entityType", JString (entityTypeName entityType));
            ("entityIdA", JString entityIdA);
            ("entityIdB", JString entityIdB);
            ("metric", JString metric) ].

Definition getTrendParams (entityId metric : string)
    (startYear endYear : option float) : json :=
  JObject ([ ("entityId", JString entityId); ("metric", JString metric) ]
           ++ optionalField "startYear" (option_map JNumber startYear)
           ++ optionalField "endYear" (option_map JNumber endYear)).

Definition getTopEntitiesParams (entityType : EntityType) (metric : string)
    (limit : option float) : json :=
  JObject ([ ("entityType", JString (entityTypeName entityType));
             ("metric", JString metric) ]
           ++ optionalField "limit" (option_map JNumber limit)).

(** A number [schema.parse] accepts where one is given. *)
Definition acceptedNumber (v : option float) : Prop :=
  match v with
  | Some f => PrimFloat.is_nan f = false
  | None => True
  end.

(** The reply for a [getTrend] that returns or throws. *)
Definition trendResponse (c : Completion (option TrendValue)) : Response :=
  match c with
  | Returned trend => mkResponse 200 (Some (TrendResult trend)) None None
  | Thrown _ => mkResponse 500 None (Some "Internal server error") None
  end.

(** The queries a chat reply suggests, none when there is no reply. *)
Definition suggestionsOf (r : Completion ChatResponse) : list BatchQuery :=
  match r with
  | Returned (ChatAnswered reply) => suggestedQueries reply
  | _ => []
  end.

(** The description a field declares with [.describe(...)], on whichever
    wrapper it was put. *)
Definition declaredDescription (fieldSchema : ZodType) : option string :=
  match fieldSchema with
  | ZodString d | ZodNumber d | ZodBoolean d | ZodEnum _ d | ZodArray _ d
  | ZodOptional _ d | ZodDefault _ _ d | ZodObject _ d => d
  end.

(** The [description] key of a rendered schema. *)
Fixpoint renderedDescription (rendered : JsonSchema) : option string :=
  match rendered with
  | SchemaString d | SchemaNumber d | SchemaArray _ d | SchemaEnum _ d => d
  | SchemaWithDefault base _ => renderedDescription base
  | SchemaObject _ _ | SchemaUnknown => None
  end.

(** The years of a series grow strictly from each point to the next. *)
Fixpoint strictlyAscending (points : list TrendPoint) : bool :=
  match points with
  | [] => true
  | p :: rest =>
      match rest with
      | [] => true
      | q :: _ => (year p <? year q)%float && strictlyAscending rest
      end
  end.

(** The point [p] lies in an earlier year than [q]. *)
Definition earlier (p q : TrendPoint) : Prop :=
  (year p <? year q)%float = true.

(* ================================================================== *)
(** * Facts about binary64 arithmetic *)
(* ================================================================== *)

Module FloatFacts.

Lemma SFcompare_refl (x : spec_float) :
  x <> S754_nan -> SFcompare x x = Some Eq.
Proof.
  destruct x as [s | s | | s m e]; simpl; intros H; try congruence.
  - destruct s; reflexivity.
  - destruct s; rewrite Z.compare_refl, Pos.compare_cont_refl; reflexivity.
Qed.

Lemma SFeqb_refl (x : spec_float) : x <> S754_nan -> SFeqb x x = true.
Proof. intros H. unfold SFeqb. now rewrite SFcompare_refl. Qed.

(** Rounding treats the sign as a label: negating the sign negates the
    rounded value. *)
Lemma binary_round_aux_negb prec emax s m e l :
  binary_round_aux prec emax (negb s) m e l
  = SFopp (binary_round_aux prec emax s m e l).
Proof.
  unfold binary_round_aux.
  destruct (shr_fexp prec emax m e l) as [mrs' e'].
  destruct (shr_fexp prec emax _ e' loc_Exact) as [mrs'' e''].
  destruct (shr_m mrs''); try reflexivity.
  destruct (Z.leb e'' (Z.sub emax prec)); reflexivity.
Qed.

Lemma binary_round_negb prec emax s m e :
  binary_round prec emax (negb s) m e = SFopp (binary_round prec emax s m e).
Proof.
  unfold binary_round.
  destruct (shl_align m e _) as [mz ez].
  apply binary_round_aux_negb.
Qed.

Lemma SFopp_involutive (x : spec_float) : SFopp (SFopp x) = x.
Proof. destruct x; simpl; now rewrite ?negb_involutive. Qed.

Lemma binary_normalize_opp prec emax m e :
  m <> 0%Z ->
  binary_normalize prec emax (- m) e false
  = SFopp (binary_normalize prec emax m e false).
Proof.
  destruct m as [| p | p]; simpl; intros H; try congruence.
  - apply (binary_round_negb prec emax false).
  - rewrite (binary_round_negb prec emax false). simpl.
    now rewrite SFopp_involutive.
Qed.

Lemma SFsub_swap prec emax (x y : spec_float) :
  SFsub prec emax x y <> S754_nan ->
  SFeqb (SFsub prec emax x y) (SFopp (SFsub prec emax y x)) = true.
Proof.
  destruct x as [sx | sx | | sx mx ex], y as [sy | sy | | sy my ey];
    try solve [ simpl; intros H;
                repeat match goal with b : bool |- _ => destruct b end;
                simpl in *;
                first [ congruence | reflexivity
                      | apply SFeqb_refl; congruence ] ].
  - unfold SFsub. rewrite (Z.min_comm ey ex).
    set (ez := Z.min ex ey).
    set (X := cond_Zopp sx (Zpos (fst (shl_align mx ex ez)))).
    set (Y := cond_Zopp sy (Zpos (fst (shl_align my ey ez)))).
    intros H.
    destruct (Z.eq_dec (X - Y) 0) as [E | E].
    + replace (Y - X)%Z with 0%Z by lia. rewrite E. reflexivity.
    + replace (Y - X)%Z with (- (X - Y))%Z by lia.
      rewrite binary_normalize_opp by assumption.
      rewrite SFopp_involutive. now apply SFeqb_refl.
Qed.

Lemma is_nan_false_spec (f : float) :
  PrimFloat.is_nan f = false -> Prim2SF f <> S754_nan.
Proof.
  unfold PrimFloat.is_nan. rewrite negb_false_iff, eqb_spec.
  intros H E. rewrite E in H. discriminate.
Qed.

(** [a - b == -(b - a)] unless the difference is [NaN]. *)
Lemma sub_swap (a b : float) :
  PrimFloat.is_nan (a - b) = false ->
  ((a - b) =? - (b - a))%float = true.
Proof.
  intros H. apply is_nan_false_spec in H.
  rewrite eqb_spec, opp_spec, !sub_spec in *.
  now apply SFsub_swap.
Qed.

End FloatFacts.

(* ================================================================== *)
(** * Lookup by id: [getEntity] and [getMetrics] *)
(* ================================================================== *)

Section LookupFacts.

Variable ds : Dataset.

Lemma getEntity_Some entityType entityId e :
  getEntity ds entityType entityId = Some e ->
  In e (collection ds entityType) /\ id e = entityId.
Proof.
  unfold getEntity. intros H. apply find_some in H.
  destruct H as [Hin Heq]. split; [assumption | now apply String.eqb_eq].
Qed.

Lemma getEntity_None_iff entityType entityId :
  getEntity ds entityType entityId = None <->
  forall e, In e (collection ds entityType) -> id e <> entityId.
Proof.
  unfold getEntity. split.
  - intros H e Hin. apply (find_none _ _ H) in Hin. now apply String.eqb_neq.
  - intros H. destruct (find _ _) as [e |] eqn:F; [| reflexivity].
    apply find_some in F. destruct F as [Hin Heq].
    apply String.eqb_eq in Heq. now apply H in Hin.
Qed.

Lemma find_by_unique_id (l : list Entity) (e : Entity) :
  NoDup (map id l) -> In e l ->
  find (fun a => String.eqb (id a) (id e)) l = Some e.
Proof.
  induction l as [| a l IH]; simpl; intros Hnd Hin; [contradiction |].
  inversion Hnd as [| ? ? Hnotin Hnd']; subst.
  destruct Hin as [-> | Hin].
  - now rewrite String.eqb_refl.
  - destruct (String.eqb (id a) (id e)) eqn:E.
    + apply String.eqb_eq in E. exfalso. apply Hnotin. rewrite E.
      now apply in_map.
    + now apply IH.
Qed.

Lemma callGetEntity_typed entityType entityId :
  callGetEntity ds (getEntityParams entityType entityId)
  = Returned (EntityResult (getEntity ds entityType entityId)).
Proof. destruct entityType; reflexivity. Qed.

End LookupFacts.

(** C8: when an entity with the requested id is stored in the collection
    that [entityType] selects, [getEntity] returns a stored entity with
    that id, which is that very entity (id, name and all) as ids are
    unique within the collection; when none is stored it returns the
    absent value; and the call made through the registry returns, it does
    not throw. *)
Theorem getEntity_present_or_absent (ds : Dataset) (entityType : EntityType)
    (entityId : string) :
  (forall e, In e (collection ds entityType) -> id e = entityId ->
     exists found,
       getEntity ds entityType entityId = Some found /\
       In found (collection ds entityType) /\
       id found = entityId /\
       (NoDup (map id (collection ds entityType)) ->
        found = e /\ name found = name e)) /\
  ((forall e, In e (collection ds entityType) -> id e <> entityId) ->
     getEntity ds entityType entityId = None) /\
  callGetEntity ds (getEntityParams entityType entityId)
  = Returned (EntityResult (getEntity ds entityType entityId)).
Proof.
  split; [| split].
  - intros e Hin Hid.
    destruct (getEntity ds entityType entityId) as [found |] eqn:G.
    + exists found. destruct (getEntity_Some _ _ _ _ G) as [Hf Hfid].
      split; [reflexivity |]. split; [assumption |]. split; [assumption |].
      intros Hnd. pose proof (find_by_unique_id _ e Hnd Hin) as U.
      unfold getEntity in G. rewrite Hid, G in U.
      injection U as ->. split; reflexivity.
    + exfalso. apply (proj1 (getEntity_None_iff _ _ _) G e Hin Hid).
  - apply getEntity_None_iff.
  - apply callGetEntity_typed.
Qed.

(** The lookups of the test suite. *)
Example getEntity_fixture_lookups :
  getEntity MockData.data author "auth_001" = Some MockData.auth_001 /\
  option_map name (getEntity MockData.data institution "inst_001")
  = Some "Massachusetts Institute of Technology" /\
  option_map name (getEntity MockData.data journal "jour_001") = Some "Nature" /\
  getEntity MockData.data author "nonexistent" = None /\
  getEntity MockData.data journal "auth_001" = None.
Proof. repeat split; reflexivity. Qed.

(** Ids are unique within each collection of the fixture. *)
Lemma mock_ids_unique (entityType : EntityType) :
  NoDup (map id (collection MockData.data entityType)).
Proof.
  destruct entityType; simpl;
    repeat (constructor; [simpl; intuition discriminate |]); constructor.
Qed.

(** On the fixture: every stored entity is returned for its own id. *)
Lemma getEntity_mock_exact (entityType : EntityType) (e : Entity) :
  In e (collection MockData.data entityType) ->
  getEntity MockData.data entityType (id e) = Some e.
Proof.
  intros Hin. unfold getEntity.
  apply find_by_unique_id; [apply mock_ids_unique | assumption].
Qed.

(** C7: [getMetrics] returns the whole metrics mapping of the entity that
    [getEntity] returns, whatever [metricNames] is, and is absent exactly
    when [getEntity] is. *)
Theorem getMetrics_ignores_metricNames (ds : Dataset) (entityType : EntityType)
    (entityId : string) (metricNames : option (list string)) :
  getMetrics ds entityType entityId metricNames
  = option_map metrics (getEntity ds entityType entityId) /\
  (forall other : option (list string),
     getMetrics ds entityType entityId other
     = getMetrics ds entityType entityId metricNames) /\
  (getMetrics ds entityType entityId metricNames = None <->
   getEntity ds entityType entityId = None).
Proof.
  unfold getMetrics.
  destruct (getEntity ds entityType entityId) as [e |]; simpl.
  - repeat split; intros; try reflexivity; discriminate.
  - repeat split; intros; reflexivity.
Qed.

(** The filter is ignored even when it names a single metric. *)
Example getMetrics_filter_has_no_effect :
  getMetrics MockData.data author "auth_001" (Some ["hIndex"])
  = Some (metrics MockData.auth_001).
Proof. reflexivity. Qed.

(* ================================================================== *)
(** * Comparison: [compareEntities] *)
(* ================================================================== *)

Lemma strictNotZero_equalsZero (v : JsValue) :
  strictNotZero v = negb (equalsZero v).
Proof. destruct v as [[f | fields] | key |]; reflexivity. Qed.

Lemma isUndefined_true {A : Type} (v : PropertyRead A) :
  isUndefined v = true <-> v = Undefined.
Proof. destruct v; simpl; split; congruence. Qed.

Lemma compareEntities_cases (ds : Dataset) (entityType : EntityType)
    (entityIdA entityIdB metric : string) :
  compareEntities ds entityType entityIdA entityIdB metric
  = match getEntity ds entityType entityIdA, getEntity ds entityType entityIdB with
    | Some a, Some b =>
        if isUndefined (getProperty (metrics a) metric)
           || isUndefined (getProperty (metrics b) metric)
        then None
        else Some (comparisonOf a b metric)
    | _, _ => None
    end.
Proof.
  unfold compareEntities, comparisonOf.
  destruct (getEntity ds entityType entityIdA) as [a |]; [| reflexivity].
  destruct (getEntity ds entityType entityIdB) as [b |]; [| reflexivity].
  rewrite strictNotZero_equalsZero.
  destruct (equalsZero _); reflexivity.
Qed.

(** What the code computes, in terms of the read [metrics[metric]]:
    [compareEntities] is absent exactly when one of the two ids is not
    stored in the selected collection or the read yields [undefined] on
    one of the two entities; otherwise the result carries both entities
    with the values read, [difference = valueA - valueB], and
    [percentDifference] is [0] when [valueB == 0] and
    [((valueA - valueB) / valueB) * 100] otherwise.  The read goes
    through the prototype of the metrics object, so a name that is
    inherited does not yield [undefined]. *)
Theorem compareEntities_absent_or_computed (ds : Dataset)
    (entityType : EntityType) (entityIdA entityIdB metric : string) :
  (compareEntities ds entityType entityIdA entityIdB metric = None <->
     (forall e, In e (collection ds entityType) -> id e <> entityIdA) \/
     (forall e, In e (collection ds entityType) -> id e <> entityIdB) \/
     (exists a b,
        getEntity ds entityType entityIdA = Some a /\
        getEntity ds entityType entityIdB = Some b /\
        (getProperty (metrics a) metric = Undefined \/
         getProperty (metrics b) metric = Undefined))) /\
  (forall r,
     compareEntities ds entityType entityIdA entityIdB metric = Some r ->
     exists a b valueA valueB,
       getEntity ds entityType entityIdA = Some a /\
       getEntity ds entityType entityIdB = Some b /\
       valueA = getProperty (metrics a) metric /\
       valueB = getProperty (metrics b) metric /\
       entityA r = mkCompared (id a) (name a) valueA /\
       entityB r = mkCompared (id b) (name b) valueB /\
       difference r = (toNumber valueA - toNumber valueB)%float /\
       percentDifference r =
         if equalsZero valueB then 0%float
         else (((toNumber valueA - toNumber valueB) / toNumber valueB) * 100)%float).
Proof.
  rewrite compareEntities_cases.
  rewrite <- !getEntity_None_iff.
  destruct (getEntity ds entityType entityIdA) as [a |] eqn:GA;
    [| split; [split; auto | discriminate] ].
  destruct (getEntity ds entityType entityIdB) as [b |] eqn:GB;
    [| split; [split; auto | discriminate] ].
  destruct (isUndefined (getProperty (metrics a) metric)) eqn:UA;
    [| destruct (isUndefined (getProperty (metrics b) metric)) eqn:UB ]; simpl.
  - apply isUndefined_true in UA. split; [| discriminate].
    split; [| reflexivity]. intros _. right. right. exists a, b. auto.
  - apply isUndefined_true in UB. split; [| discriminate].
    split; [| reflexivity]. intros _. right. right. exists a, b. auto.
  - split.
    + split; [discriminate |].
      intros [H | [H | (a' & b' & Ha & Hb & [H | H])]]; try discriminate;
        injection Ha as <-; injection Hb as <-; rewrite H in *; discriminate.
    + intros r [= <-]. exists a, b, (getProperty (metrics a) metric),
        (getProperty (metrics b) metric).
      repeat split; reflexivity.
Qed.

(** C1: the code against the specified function.  For a metric name
    that is none of the twelve names every object inherits, the two
    agree on every dataset and every pair of ids.  For one of the
    twelve that is not a present key on both entities, the specified
    result is absent and the code returns a comparison.  So on the
    stored authors with [metric = toString]: the name is a key of
    neither metrics object, and the code compares the two inherited
    functions, with [NaN] for the difference and for the percentage. *)
Theorem compareEntities_inherited_metric_is_compared :
  (forall ds entityType entityIdA entityIdB metric,
     inPrototype metric = false ->
     compareEntities ds entityType entityIdA entityIdB metric
     = compareEntities_spec ds entityType entityIdA entityIdB metric) /\
  (forall ds entityType entityIdA entityIdB metric a b,
     getEntity ds entityType entityIdA = Some a ->
     getEntity ds entityType entityIdB = Some b ->
     inPrototype metric = true ->
     presentKey (metrics a) metric && presentKey (metrics b) metric = false ->
     compareEntities_spec ds entityType entityIdA entityIdB metric = None /\
     compareEntities ds entityType entityIdA entityIdB metric
     = Some (comparisonOf a b metric)) /\
  presentKey (metrics MockData.auth_001) "toString" = false /\
  presentKey (metrics MockData.auth_002) "toString" = false /\
  compareEntities_spec MockData.data author "auth_001" "auth_002" "toString"
  = None /\
  exists r,
    compareEntities MockData.data author "auth_001" "auth_002" "toString"
    = Some r /\
    entityA r = mkCompared "auth_001" "Dr. Sarah Chen" (Inherited "toString") /\
    entityB r
    = mkCompared "auth_002" "Prof. James Anderson" (Inherited "toString") /\
    PrimFloat.is_nan (difference r) = true /\
    PrimFloat.is_nan (percentDifference r) = true.
Proof.
  split; [| split].
  - intros ds entityType entityIdA entityIdB metric Hproto.
    rewrite compareEntities_cases. unfold compareEntities_spec.
    destruct (getEntity ds entityType entityIdA) as [a |]; [| reflexivity].
    destruct (getEntity ds entityType entityIdB) as [b |]; [| reflexivity].
    unfold presentKey, getProperty. rewrite Hproto.
    destruct (ownProperty (metrics a) metric);
      destruct (ownProperty (metrics b) metric); reflexivity.
  - intros ds entityType entityIdA entityIdB metric a b GA GB Hproto Hkey.
    rewrite compareEntities_cases. unfold compareEntities_spec.
    rewrite GA, GB, Hkey. split; [reflexivity |].
    unfold getProperty. rewrite Hproto.
    destruct (ownProperty (metrics a) metric);
      destruct (ownProperty (metrics b) metric); reflexivity.
  - split; [reflexivity |]. split; [reflexivity |]. split; [reflexivity |].
    eexists. split; [reflexivity |].
    split; [reflexivity |]. split; [reflexivity |].
    split; vm_compute; reflexivity.
Qed.

(** The scenario of the specification: Prof. Anderson against Dr. Chen on
    citations.  The percentage is 84.78 to two decimals. *)
Example compareEntities_citations_scenario :
  compareEntities MockData.data author "auth_002" "auth_001" "citations"
  = Some {| entityA := mkCompared "auth_002" "Prof. James Anderson" (Own (MNumber 8912));
            entityB := mkCompared "auth_001" "Dr. Sarah Chen" (Own (MNumber 4823));
            difference := 4089;
            percentDifference := 84.781256479369688 |}.
Proof. vm_compute. reflexivity. Qed.

(** A metric that only one of the two entity kinds carries is absent on
    authors. *)
Example compareEntities_missing_metric :
  compareEntities MockData.data author "auth_001" "auth_002" "nonexistentMetric"
  = None.
Proof. reflexivity. Qed.

(** A name inherited from [Object.prototype] does not read as
    [undefined]: the comparison is defined, on two functions. *)
Example compareEntities_inherited_name :
  compareEntities MockData.data author "auth_001" "auth_002" "toString"
  = Some {| entityA := mkCompared "auth_001" "Dr. Sarah Chen" (Inherited "toString");
            entityB := mkCompared "auth_002" "Prof. James Anderson" (Inherited "toString");
            difference := nan;
            percentDifference := nan |}.
Proof. vm_compute. reflexivity. Qed.

(** C6, as stated, fails on the nested metric of the fixture: both
    comparisons are defined, both differences are [NaN], and [NaN] equals
    nothing. *)
Lemma compareEntities_nested_metric_not_antisymmetric :
  exists rAB rBA,
    compareEntities MockData.data author "auth_001" "auth_002"
      "outputsInTopCitationPercentiles" = Some rAB /\
    compareEntities MockData.data author "auth_002" "auth_001"
      "outputsInTopCitationPercentiles" = Some rBA /\
    (difference rAB =? - difference rBA)%float = false.
Proof.
  eexists. eexists. split; [reflexivity |]. split; [reflexivity |].
  vm_compute. reflexivity.
Qed.

(** C6 (amended): when both comparisons are defined and the difference is
    a number other than [NaN], [difference_AB == -difference_BA]; and
    whenever B's value is [0], [percentDifference] of the comparison of A
    with B is [0], whatever A's value. *)
Theorem compareEntities_difference_antisymmetric (ds : Dataset)
    (entityType : EntityType) (entityIdA entityIdB metric : string)
    (rAB rBA : Comparison) :
  compareEntities ds entityType entityIdA entityIdB metric = Some rAB ->
  compareEntities ds entityType entityIdB entityIdA metric = Some rBA ->
  (PrimFloat.is_nan (difference rAB) = false ->
   (difference rAB =? - difference rBA)%float = true) /\
  (equalsZero (compared_value (entityB rAB)) = true ->
   percentDifference rAB = 0%float).
Proof.
  rewrite !compareEntities_cases.
  destruct (getEntity ds entityType entityIdA) as [a |]; [| discriminate].
  destruct (getEntity ds entityType entityIdB) as [b |]; [| discriminate].
  rewrite (orb_comm (isUndefined (getProperty (metrics b) metric))).
  destruct (_ || _); [discriminate |].
  intros [= <-] [= <-]. simpl. split.
  - apply FloatFacts.sub_swap.
  - intros ->. reflexivity.
Qed.

(** The two comparisons of Prof. Anderson and Dr. Chen on citations:
    [4089 == -(-4089)]. *)
Lemma compareEntities_difference_antisymmetric_witness :
  exists rAB rBA,
    compareEntities MockData.data author "auth_002" "auth_001" "citations" = Some rAB /\
    compareEntities MockData.data author "auth_001" "auth_002" "citations" = Some rBA /\
    (difference rAB =? - difference rBA)%float = true.
Proof.
  eexists. eexists. split; [reflexivity |]. split; [reflexivity |].
  apply (compareEntities_difference_antisymmetric MockData.data author
           "auth_002" "auth_001" "citations" _ _ eq_refl eq_refl).
  reflexivity.
Defined.

Example percentDifference_not_antisymmetric :
  option_map percentDifference
    (compareEntities zeroCitationsData author "a" "b" "citations") = Some 0%float /\
  option_map percentDifference
    (compareEntities zeroCitationsData author "b" "a" "citations") = Some (-100)%float.
Proof. split; vm_compute; reflexivity. Qed.

(* ================================================================== *)
(** * Trend series: [getTrend] *)
(* ================================================================== *)

Section TrendFacts.

Variable ds : Dataset.

Lemma filter_filter {A : Type} (f g : A -> bool) (l : list A) :
  filter g (filter f l) = filter (fun x => f x && g x) l.
Proof.
  induction l as [| x l IH]; simpl; [reflexivity |].
  destruct (f x); simpl; [destruct (g x) |]; now rewrite IH.
Qed.

Lemma filter_all {A : Type} (l : list A) : filter (fun _ => true) l = l.
Proof. induction l as [| x l IH]; simpl; congruence. Qed.

(** The [metric] argument is never read. *)
Lemma getTrend_metric_unused entityId metric metric' startYear endYear :
  getTrend ds entityId metric startYear endYear
  = getTrend ds entityId metric' startYear endYear.
Proof. reflexivity. Qed.

(** The absent value comes from the lookup alone. *)
Lemma getTrend_absent_iff entityId metric startYear endYear :
  getTrend ds entityId metric startYear endYear = Returned None <->
  getProperty (mockTrends ds) entityId = Undefined.
Proof.
  unfold getTrend, filterByYears.
  destruct (getProperty (mockTrends ds) entityId) as [points | key |];
    [| | split; reflexivity ].
  - split; [| discriminate].
    destruct startYear as [s |], endYear as [e |]; simpl;
      repeat match goal with
             | |- context [numberTruthy ?b] => destruct (numberTruthy b)
             end; discriminate.
  - split; [| discriminate].
    destruct startYear as [s |], endYear as [e |]; simpl;
      repeat match goal with
             | |- context [numberTruthy ?b] => destruct (numberTruthy b)
             end; discriminate.
Qed.

(** With bounds the code acts upon, the result is the subsequence of
    the stored series inside the bounds, in the order of the series. *)
Lemma getTrend_acted_bounds entityId metric startYear endYear points :
  getProperty (mockTrends ds) entityId = Own points ->
  actedUpon startYear -> actedUpon endYear ->
  getTrend ds entityId metric startYear endYear
  = Returned (Some (Series (filter (withinBounds startYear endYear) points))).
Proof.
  intros Hown Hs He. unfold getTrend, filterByYears, withinBounds. rewrite Hown.
  destruct startYear as [s |], endYear as [e |]; simpl in *;
    rewrite ?Hs, ?He, ?filter_filter; simpl.
  - reflexivity.
  - do 3 f_equal. apply filter_ext. intros p. now rewrite andb_true_r.
  - reflexivity.
  - now rewrite filter_all.
Qed.

(** A stored series always comes back as a series, never as the absent
    value and never as an exception. *)
Lemma getTrend_own_returns entityId metric startYear endYear points :
  getProperty (mockTrends ds) entityId = Own points ->
  exists filtered,
    getTrend ds entityId metric startYear endYear
    = Returned (Some (Series filtered)).
Proof.
  intros Hown. unfold getTrend, filterByYears. rewrite Hown.
  destruct startYear as [s |], endYear as [e |]; simpl;
    repeat match goal with
           | |- context [numberTruthy ?b] => destruct (numberTruthy b)
           end; eexists; reflexivity.
Qed.

End TrendFacts.

(** The range of the specification's example on the fixture. *)
Example getTrend_2020_2022 :
  getTrend MockData.data "auth_001" "publications" (Some 2020%float) (Some 2022%float)
  = Returned (Some (Series [ mkTrendPoint 2020 15; mkTrendPoint 2021 18;
                             mkTrendPoint 2022 22 ])).
Proof. vm_compute. reflexivity. Qed.

(** C4: the code at [endYear = 0].  The bound is given, no point of the
    series has [year <= 0], and yet all five points come back: the test
    [if (endYear)] takes the number [0] for an omitted bound. *)
Theorem getTrend_zero_endYear_is_ignored :
  getTrend MockData.data "auth_001" "publications" None (Some 0%float)
  = Returned (Some (Series (MockData.series 12 15 18 22 19))) /\
  filter (withinBounds None (Some 0%float)) (MockData.series 12 15 18 22 19) = [].
Proof. split; vm_compute; reflexivity. Qed.

(** An id that names a member of [Object.prototype] has no series, and is
    not answered with the absent value: the member itself comes back, or
    the filtering throws. *)
Example getTrend_inherited_key :
  getTrend MockData.data "constructor" "publications" None None
  = Returned (Some (Builtin "constructor")) /\
  getTrend MockData.data "constructor" "publications" (Some 2020%float) None
  = Thrown (TypeError "filtered.filter is not a function").
Proof. split; reflexivity. Qed.

(** C10: the code at bounds that exclude every point of a stored series.
    With [startYear = 2030] the result is the empty series; with
    [endYear = 0], which excludes every point as well, it is the whole
    series.  Neither is the absent value. *)
Theorem getTrend_excluding_bounds :
  getTrend MockData.data "inst_001" "publications" (Some 2030%float) None
  = Returned (Some (Series [])) /\
  forallb (fun point => negb (withinBounds None (Some 0%float) point))
    (MockData.series 11234 11892 12156 12389 12456) = true /\
  getTrend MockData.data "inst_001" "publications" None (Some 0%float)
  = Returned (Some (Series (MockData.series 11234 11892 12156 12389 12456))).
Proof. repeat split; vm_compute; reflexivity. Qed.

(* ================================================================== *)
(** * Strings: case folding and substrings *)
(* ================================================================== *)

Module StringFacts.

Local Open Scope string_scope.

Lemma prefix_iff (p s : string) :
  String.prefix p s = true <-> exists post, s = p ++ post.
Proof.
  revert s. induction p as [| a p IH]; intros s.
  - split; [intros _; now exists s | intros _; now destruct s].
  - destruct s as [| b s]; simpl.
    + split; [discriminate | intros [post H]; discriminate].
    + destruct (ascii_dec a b) as [-> | Hne].
      * rewrite IH. split; intros [post H]; exists post; congruence.
      * split; [discriminate | intros [post H]; congruence].
Qed.

Lemma includes_iff (s search : string) :
  includes s search = true <-> exists pre post, s = pre ++ search ++ post.
Proof.
  induction s as [| c s IH].
  - change (includes "" search) with (String.prefix search "" || false).
    rewrite orb_true_iff, prefix_iff. split.
    + intros [[post H] | H]; [| discriminate]. now exists "", post.
    + intros (pre & post & H). left.
      destruct pre; [now exists post | discriminate].
  - change (includes (String c s) search)
      with (String.prefix search (String c s) || includes s search).
    rewrite orb_true_iff, prefix_iff, IH. split.
    + intros [[post H] | (pre & post & H)].
      * now exists "", post.
      * exists (String c pre), post. simpl. congruence.
    + intros (pre & post & H). destruct pre as [| c' pre]; simpl in H.
      * left. now exists post.
      * right. exists pre, post. congruence.
Qed.

Lemma toLowerCase_app (s t : string) :
  toLowerCase (s ++ t) = toLowerCase s ++ toLowerCase t.
Proof. induction s as [| c s IH]; simpl; congruence. Qed.

(** A split of the lowered string comes from a split of the string. *)
Lemma toLowerCase_split (s x y : string) :
  toLowerCase s = x ++ y ->
  exists a b, s = a ++ b /\ toLowerCase a = x /\ toLowerCase b = y.
Proof.
  revert s. induction x as [| c x IH]; intros s H; simpl in H.
  - now exists "", s.
  - destruct s as [| d s]; simpl in H; [discriminate |].
    injection H as Hc Hrest.
    destruct (IH _ Hrest) as (a & b & -> & Ha & Hb).
    exists (String d a), b. simpl. repeat split; congruence.
Qed.

End StringFacts.

Lemma differOnlyInCase_iff (s t : string) :
  differOnlyInCase s t <-> toLowerCase s = toLowerCase t.
Proof.
  revert t. induction s as [| c s IH]; intros [| d t]; simpl;
    try (split; [contradiction | discriminate]); [tauto |].
  rewrite IH. unfold sameLetter. split.
  - intros [-> ->]. reflexivity.
  - intros H. injection H as H1 H2. auto.
Qed.

Lemma includes_lower_iff (name query : string) :
  includes (toLowerCase name) (toLowerCase query) = true <->
  containsIgnoringCase name query.
Proof.
  unfold containsIgnoringCase. rewrite StringFacts.includes_iff. split.
  - intros (pre & post & H).
    apply StringFacts.toLowerCase_split in H.
    destruct H as (a & rest & -> & _ & Hrest).
    apply StringFacts.toLowerCase_split in Hrest.
    destruct Hrest as (mid & b & -> & Hmid & _).
    exists a, mid, b. split; [reflexivity | now apply differOnlyInCase_iff].
  - intros (pre & mid & post & -> & H). apply differOnlyInCase_iff in H.
    exists (toLowerCase pre), (toLowerCase post).
    now rewrite !StringFacts.toLowerCase_app, H.
Qed.

(* ================================================================== *)
(** * Truncation: [slice(0, limit)] *)
(* ================================================================== *)

Section SliceFacts.

Context {A : Type}.

Lemma firstn_min (n : nat) (l : list A) :
  firstn (Nat.min n (List.length l)) l = firstn n l.
Proof.
  destruct (Nat.le_ge_cases n (List.length l)) as [H | H].
  - now rewrite Nat.min_l.
  - rewrite Nat.min_r by assumption.
    now rewrite firstn_all, firstn_all2.
Qed.

(** A limit whose integer part is [z >= 0] keeps the first [z]
    elements. *)
Lemma sliceFromStart_nonnegative (l : list A) (limit : float) (z : Z) :
  toIntegerOrInfinity limit = Finite z -> (0 <= z)%Z ->
  sliceFromStart l limit = firstn (Z.to_nat z) l.
Proof.
  intros H Hz. unfold sliceFromStart, sliceEnd. rewrite H.
  destruct (Z.ltb_spec z 0); [lia |]. apply firstn_min.
Qed.

(** A limit whose integer part is [-k < 0] drops the last [k]
    elements. *)
Lemma sliceFromStart_negative (l : list A) (limit : float) (z : Z) :
  toIntegerOrInfinity limit = Finite z -> (z < 0)%Z ->
  sliceFromStart l limit = firstn (List.length l - Z.to_nat (- z)) l.
Proof.
  intros H Hz. unfold sliceFromStart, sliceEnd. rewrite H.
  destruct (Z.ltb_spec z 0); [| lia]. f_equal. lia.
Qed.

(** [Infinity] keeps everything and [-Infinity] nothing. *)
Lemma sliceFromStart_infinite (l : list A) (limit : float) :
  (toIntegerOrInfinity limit = PlusInfinity -> sliceFromStart l limit = l) /\
  (toIntegerOrInfinity limit = MinusInfinity -> sliceFromStart l limit = []).
Proof.
  unfold sliceFromStart, sliceEnd. split; intros ->.
  - apply firstn_all.
  - reflexivity.
Qed.

Lemma sliceFromStart_length_nonnegative (l : list A) (limit : float) (z : Z) :
  toIntegerOrInfinity limit = Finite z -> (0 <= z)%Z ->
  List.length (sliceFromStart l limit) = Nat.min (Z.to_nat z) (List.length l).
Proof.
  intros H Hz. rewrite (sliceFromStart_nonnegative l limit z H Hz).
  apply length_firstn.
Qed.

End SliceFacts.

(* ================================================================== *)
(** * Search: [searchEntities] *)
(* ================================================================== *)

Lemma toLowerCase_includes_empty (s : string) : includes s "" = true.
Proof. destruct s; reflexivity. Qed.

(** C3, as stated, fails for a negative limit: with [limit = -1] the
    empty query yields two of the three authors, where the first
    [limit] matches would be none. *)
Lemma searchEntities_negative_limit_keeps_entities :
  searchEntities MockData.data author "" (-1)%float
  = [MockData.auth_001; MockData.auth_002] /\
  matching MockData.data author "" = collection MockData.data author /\
  toIntegerOrInfinity (-1)%float = Finite (-1) /\
  firstn (Z.to_nat (-1)) (matching MockData.data author "") = [].
Proof. repeat split; vm_compute; reflexivity. Qed.

(** C3 (amended): [searchEntities] selects exactly the entities of the
    collection whose name contains the query as a case-insensitive
    substring, in collection order, and returns the first [n] of them
    when the integer part of [limit] is [n >= 0]; when it is [-k < 0] it
    returns all but the last [k] of them ([Infinity] keeps them all,
    [-Infinity] none).  The empty query matches every entity, and queries
    that differ only in letter case give the same result. *)
Theorem searchEntities_matches_in_order (ds : Dataset) (entityType : EntityType)
    (query : string) (limit : float) :
  (forall e, In e (matching ds entityType query) <->
             In e (collection ds entityType) /\
             containsIgnoringCase (name e) query) /\
  (exists keep, matching ds entityType query = filter keep (collection ds entityType)) /\
  (forall z, toIntegerOrInfinity limit = Finite z -> (0 <= z)%Z ->
     searchEntities ds entityType query limit
     = firstn (Z.to_nat z) (matching ds entityType query)) /\
  (forall z, toIntegerOrInfinity limit = Finite z -> (z < 0)%Z ->
     searchEntities ds entityType query limit
     = firstn (List.length (matching ds entityType query) - Z.to_nat (- z))
         (matching ds entityType query)) /\
  (toIntegerOrInfinity limit = PlusInfinity ->
     searchEntities ds entityType query limit = matching ds entityType query) /\
  (toIntegerOrInfinity limit = MinusInfinity ->
     searchEntities ds entityType query limit = []) /\
  (query = "" -> matching ds entityType query = collection ds entityType) /\
  (forall query', differOnlyInCase query query' ->
     searchEntities ds entityType query' limit
     = searchEntities ds entityType query limit).
Proof.
  split; [| split; [| split; [| split; [| split; [| split; [| split]]]]]].
  - intros e. unfold matching. rewrite filter_In, includes_lower_iff. tauto.
  - eexists. reflexivity.
  - intros z H Hz. now apply sliceFromStart_nonnegative.
  - intros z H Hz. now apply sliceFromStart_negative.
  - apply sliceFromStart_infinite.
  - apply sliceFromStart_infinite.
  - intros ->. unfold matching. simpl.
    erewrite filter_ext; [apply filter_all |].
    intros e. apply toLowerCase_includes_empty.
  - intros query' H. apply differOnlyInCase_iff in H.
    unfold searchEntities. now rewrite H.
Qed.

(** The pair of queries of the specification. *)
Example searchEntities_chen_any_case :
  searchEntities MockData.data author "chen" 10 = [MockData.auth_001] /\
  searchEntities MockData.data author "CHEN" 10 = [MockData.auth_001].
Proof. split; vm_compute; reflexivity. Qed.

(* ================================================================== *)
(** * Ranking: [getTopEntities] *)
(* ================================================================== *)

Section SortFacts.

Context {A : Type}.
Variable comparefn : A -> A -> float.

Lemma insertSorted_perm (x : A) (l : list A) :
  Permutation (x :: l) (insertSorted comparefn x l).
Proof.
  induction l as [| y l IH]; simpl; [apply Permutation_refl |].
  destruct (goesAfter comparefn x y); [| apply Permutation_refl].
  eapply perm_trans; [apply perm_swap |]. now apply perm_skip.
Qed.

Lemma sort_perm (l : list A) : Permutation l (sort comparefn l).
Proof.
  induction l as [| x l IH]; simpl; [apply perm_nil |].
  eapply perm_trans; [| apply insertSorted_perm]. now apply perm_skip.
Qed.

Lemma sort_length (l : list A) :
  List.length (sort comparefn l) = List.length l.
Proof. symmetry. apply Permutation_length, sort_perm. Qed.

(** When no element goes after another, the array stays as it is. *)
Lemma sort_all_ties (l : list A) :
  (forall x y, In x l -> In y l -> goesAfter comparefn x y = false) ->
  sort comparefn l = l.
Proof.
  induction l as [| x l IH]; intros H; simpl; [reflexivity |].
  rewrite IH by (intros; apply H; now right).
  destruct l as [| y l]; simpl; [reflexivity |].
  rewrite H; [reflexivity | now left | right; now left].
Qed.

End SortFacts.

Lemma rankedDescending_ties {A : Type} (key : A -> float) (l : list A) :
  (forall x y, In x l -> In y l -> (key x <? key y)%float = false) ->
  rankedDescending key l l.
Proof.
  intros H. split; [apply Permutation_refl |].
  intros i j x y Hlt Hx Hy. right. split.
  - apply H; eapply nth_error_In; eassumption.
  - now exists i, j.
Qed.

Lemma ownProperty_cons_ne {A : Type} (k : string) (v : A)
    (rest : list (string * A)) (key : string) :
  k <> key -> ownProperty ((k, v) :: rest) key = ownProperty rest key.
Proof. intros N. simpl. now rewrite (proj2 (String.eqb_neq k key) N). Qed.

Lemma fixture_metric_cases (metric : string) :
  In metric fixtureMetricNames \/
  forall entityType e,
    In e (collection MockData.data entityType) ->
    ownProperty (metrics e) metric = None.
Proof.
  destruct (in_dec string_dec metric fixtureMetricNames) as [Hin | Hout];
    [now left | right].
  assert (Hne : forall k, In k fixtureMetricNames -> k <> metric)
    by (intros k Hk ->; contradiction).
  intros entityType e Hin.
  destruct entityType;
    cbv [collection MockData.data mockAuthors mockInstitutions mockJournals In] in Hin;
    repeat (destruct Hin as [<- | Hin]; [| try contradiction]);
    cbv [metrics MockData.auth_001 MockData.auth_002 MockData.auth_003
         MockData.inst_001 MockData.inst_002 MockData.inst_003
         MockData.jour_001 MockData.jour_002 MockData.jour_003
         MockData.authorMetrics MockData.institutionMetrics MockData.journalMetrics];
    rewrite !ownProperty_cons_ne
      by (apply Hne; unfold fixtureMetricNames; simpl; tauto);
    reflexivity.
Qed.

(** For a name that is no own key in the fixture, no entity goes after
    another: the values are all [0], or all the same inherited member. *)
Lemma unknown_metric_all_ties (metric : string) (l : list Entity) :
  (forall e, In e l -> ownProperty (metrics e) metric = None) ->
  (forall x y, In x l -> In y l ->
     goesAfter (byMetricDescending metric) x y = false) /\
  (forall x y, In x l -> In y l ->
     (rankingKey metric x <? rankingKey metric y)%float = false).
Proof.
  intros H. split; intros x y Hx Hy;
    unfold goesAfter, sortCompare, byMetricDescending, metricOrZero,
      rankingKey, getProperty;
    rewrite (H x Hx), (H y Hy); destruct (inPrototype metric); reflexivity.
Qed.

(** On the three-element collections of the fixture, with a concrete
    metric name, the ranking is checked by evaluation. *)
Ltac check_fixture_ranking :=
  split; [apply sort_perm |];
  let i := fresh "i" in let j := fresh "j" in
  let x := fresh "x" in let y := fresh "y" in
  let Hlt := fresh "Hlt" in let Hx := fresh "Hx" in let Hy := fresh "Hy" in
  intros i j x y Hlt Hx Hy;
  destruct i as [| [| [| i]]]; destruct j as [| [| [| j]]]; try lia;
  vm_compute in Hx; vm_compute in Hy;
  try discriminate;
  try (destruct i; discriminate); try (destruct j; discriminate);
  injection Hx as <-; injection Hy as <-;
  first
    [ left; vm_compute; reflexivity
    | right; split;
      [ vm_compute; reflexivity
      | first [ exists 0, 1; repeat split; [lia]
              | exists 0, 2; repeat split; [lia]
              | exists 1, 2; repeat split; [lia] ] ] ].

Lemma fixture_ranked (entityType : EntityType) (metric : string) :
  rankedDescending (rankingKey metric) (collection MockData.data entityType)
    (sort (byMetricDescending metric) (collection MockData.data entityType)).
Proof.
  destruct (fixture_metric_cases metric) as [Hknown | Hunknown].
  - unfold fixtureMetricNames in Hknown. simpl in Hknown.
    repeat (destruct Hknown as [<- | Hknown]; [| try contradiction]);
      destruct entityType; check_fixture_ranking.
  - destruct (unknown_metric_all_ties metric _ (Hunknown entityType))
      as [Hties Hkeys].
    rewrite sort_all_ties by assumption.
    now apply rankedDescending_ties.
Qed.

(** C2, as stated, fails for a negative limit: with [limit = -1] the
    result has two entities, while [min(limit, collectionSize)] is
    [-1]. *)
Lemma getTopEntities_negative_limit_length :
  List.length (getTopEntities MockData.data author "citations" (-1)%float) = 2 /\
  toIntegerOrInfinity (-1)%float = Finite (-1) /\
  Z.min (-1) (Z.of_nat (List.length (collection MockData.data author))) = (-1)%Z.
Proof. repeat split; vm_compute; reflexivity. Qed.

(** C2 (amended): on the fixture, for every entity type, metric and
    limit, [getTopEntities] returns a prefix of the collection ranked in
    descending order of the metric's value, a missing metric counting as
    [0] and ties keeping the order of the collection.  When the integer
    part of [limit] is [n >= 0] the prefix has length
    [min(n, collectionSize)]; when it is [-k < 0] the last [k] ranked
    entities are dropped ([Infinity] keeps them all, [-Infinity]
    none). *)
Theorem getTopEntities_ranked_and_truncated (entityType : EntityType)
    (metric : string) (limit : float) :
  exists ranked,
    rankedDescending (rankingKey metric)
      (collection MockData.data entityType) ranked /\
    (forall z, toIntegerOrInfinity limit = Finite z -> (0 <= z)%Z ->
       getTopEntities MockData.data entityType metric limit
       = firstn (Z.to_nat z) ranked /\
       List.length (getTopEntities MockData.data entityType metric limit)
       = Nat.min (Z.to_nat z)
           (List.length (collection MockData.data entityType))) /\
    (forall z, toIntegerOrInfinity limit = Finite z -> (z < 0)%Z ->
       getTopEntities MockData.data entityType metric limit
       = firstn (List.length (collection MockData.data entityType)
                 - Z.to_nat (- z)) ranked) /\
    (toIntegerOrInfinity limit = PlusInfinity ->
       getTopEntities MockData.data entityType metric limit = ranked) /\
    (toIntegerOrInfinity limit = MinusInfinity ->
       getTopEntities MockData.data entityType metric limit = []).
Proof.
  exists (sort (byMetricDescending metric) (collection MockData.data entityType)).
  split; [apply fixture_ranked |]. unfold getTopEntities.
  split; [| split; [| split]].
  - intros z H Hz. split.
    + now apply sliceFromStart_nonnegative.
    + rewrite (sliceFromStart_length_nonnegative _ limit z H Hz).
      now rewrite sort_length.
  - intros z H Hz. rewrite (sliceFromStart_negative _ limit z H Hz).
    now rewrite sort_length.
  - apply sliceFromStart_infinite.
  - apply sliceFromStart_infinite.
Qed.

(** The scenario of the specification: the two most cited authors. *)
Example getTopEntities_two_most_cited :
  getTopEntities MockData.data author "citations" 2
  = [MockData.auth_002; MockData.auth_001].
Proof. vm_compute. reflexivity. Qed.

(** Authors carry no [sjr]: every value counts as [0] and the collection
    keeps its order. *)
Example getTopEntities_missing_metric_keeps_order :
  getTopEntities MockData.data author "sjr" 10
  = [MockData.auth_001; MockData.auth_002; MockData.auth_003].
Proof. vm_compute. reflexivity. Qed.

(* ================================================================== *)
(** * Batch invocation *)
(* ================================================================== *)

Section BatchFacts.

Variable ds : Dataset.

(** An item and the single invocation of the same function on the same
    parameters come to the same outcome. *)
Lemma batchItemFor_matches_apiQuery (functionName : string) (params : json) :
  exists outcome,
    outcomeOfItem (batchItemFor ds functionName params) = Some outcome /\
    outcomeOfResponse (apiQuery ds functionName params) = Some outcome.
Proof.
  unfold batchItemFor, apiQuery.
  destruct (isUndefined (getProperty (queryFunctions ds) functionName)).
  - eexists. split; reflexivity.
  - destruct (attempt _ _); eexists; split; reflexivity.
Qed.

(** The tag of an item against the status of the single invocation: a
    success for 200, a failure for 400 and for 500, and no tag at all
    for 404. *)
Lemma batchItemFor_tag (functionName : string) (params : json) :
  (success (batchItemFor ds functionName params) = None <->
   status (apiQuery ds functionName params) = 404) /\
  (taggedSuccess (batchItemFor ds functionName params) <->
   status (apiQuery ds functionName params) = 200) /\
  (taggedFailure (batchItemFor ds functionName params) <->
   status (apiQuery ds functionName params) = 400 \/
   status (apiQuery ds functionName params) = 500).
Proof.
  unfold batchItemFor, apiQuery, taggedSuccess, taggedFailure.
  destruct (isUndefined (getProperty (queryFunctions ds) functionName));
    [| destruct (attempt _ _)]; cbn;
    (split; [| split]); split;
    try discriminate; try reflexivity;
    try (intros [H _]; discriminate H);
    try (intros [H | H]; discriminate H);
    try (intros _; repeat split; discriminate);
    try (intros _; left; reflexivity);
    try (intros _; right; reflexivity).
Qed.

(** The callback leaves through an exception exactly on an element that
    cannot be destructured or whose [functionName] has no key. *)
Lemma batchItem_throws_iff (query : json) :
  (exists e, batchItem ds query = Thrown e) <->
  query = JNull \/ query = JUndefined \/
  exists e, toPropertyKey (Params.field query "functionName") = Thrown e.
Proof.
  unfold batchItem.
  destruct query as [| | b | f | s | items | fields];
    try (split; [intros _; auto | intros _; now eexists]);
    try (cbn; split;
         [ intros [e H]; discriminate H
         | intros [H | [H | [e H]]]; discriminate H ]).
  cbn [Params.field].
  destruct (toPropertyKey _) as [key | e].
  - split; [intros [e H]; discriminate H |].
    intros [H | [H | [e H]]]; discriminate H.
  - split; [intros _; right; right; now exists e | intros _; now exists e].
Qed.

(** The element a client writes for a query is read back as that
    query. *)
Lemma batchItem_queryObject (query : BatchQuery) :
  batchItem ds (queryObject query)
  = Returned (batchItemFor ds (functionName query) (params query)).
Proof. reflexivity. Qed.

End BatchFacts.

Lemma arrayMap_Returned {A B : Type} (callbackfn : A -> Completion B)
    (arr : list A) (mapped : list B) :
  arrayMap callbackfn arr = Returned mapped ->
  List.length mapped = List.length arr /\
  forall i x,
    nth_error arr i = Some x ->
    exists y, nth_error mapped i = Some y /\ callbackfn x = Returned y.
Proof.
  revert mapped. induction arr as [| a arr IH]; intros mapped; simpl.
  - intros [= <-]. split; [reflexivity |]. intros [| i] x; discriminate.
  - destruct (callbackfn a) as [y |] eqn:Ha; [| discriminate].
    destruct (arrayMap callbackfn arr) as [ys |]; [| discriminate].
    intros [= <-]. destruct (IH ys eq_refl) as [Hlen Hnth].
    split; [simpl; now rewrite Hlen |].
    intros [| i] x; simpl.
    + intros [= <-]. now exists y.
    + apply Hnth.
Qed.

Lemma arrayMap_Thrown_iff {A B : Type} (callbackfn : A -> Completion B)
    (arr : list A) :
  (exists e, arrayMap callbackfn arr = Thrown e) <->
  exists x, In x arr /\ exists e, callbackfn x = Thrown e.
Proof.
  induction arr as [| a arr IH]; simpl.
  - split; [intros [e H]; discriminate H | intros (x & [] & _)].
  - destruct (callbackfn a) as [y | e] eqn:Ha.
    + destruct (arrayMap callbackfn arr) as [ys | e].
      * split; [intros [e H]; discriminate H |].
        intros (x & [<- | Hin] & e & Hx); [congruence |].
        destruct IH as [_ IH].
        destruct IH as [e' H]; [now exists x; split; [| exists e] |].
        discriminate H.
      * split; [| intros _; now exists e].
        intros _. destruct IH as [IH _].
        destruct IH as (x & Hin & Hx); [now exists e |].
        exists x. split; [now right | assumption].
    + split; [| intros _; now exists e].
      intros _. exists a. split; [now left | now exists e].
Qed.

(** When [/api/batch] answers with results, there is one item per
    element of [queries], in the order of the elements; the item at a
    position is the callback's value on the element at that position
    alone, the same whatever stands at the other positions; and it comes
    to the same outcome (success, unknown function, invalid parameters
    with their issues, execution failure) as the single invocation of
    that function on those parameters. *)
Lemma apiBatch_items_independent (ds : Dataset) (queries : list json)
    (results : list BatchItem) :
  apiBatch ds (JArray queries) = Returned (BatchResults results) ->
  List.length results = List.length queries /\
  (forall i query,
     nth_error queries i = Some query ->
     exists item functionName outcome,
       nth_error results i = Some item /\
       batchItem ds query = Returned item /\
       toPropertyKey (Params.field query "functionName")
       = Returned functionName /\
       outcomeOfItem item = Some outcome /\
       outcomeOfResponse
         (apiQuery ds functionName (Params.field query "params"))
       = Some outcome) /\
  (forall others results' i,
     apiBatch ds (JArray others) = Returned (BatchResults results') ->
     nth_error others i = nth_error queries i ->
     nth_error results' i = nth_error results i).
Proof.
  unfold apiBatch.
  destruct (arrayMap (batchItem ds) queries) as [mapped |] eqn:M;
    [| discriminate].
  intros [= <-]. destruct (arrayMap_Returned _ _ _ M) as [Hlen Hnth].
  split; [assumption |]. split.
  - intros i query Hq. destruct (Hnth i query Hq) as (item & Hi & Hitem).
    pose proof Hitem as Hcall. unfold batchItem in Hcall.
    assert (exists functionName,
              toPropertyKey (Params.field query "functionName")
              = Returned functionName /\
              item = batchItemFor ds functionName (Params.field query "params"))
      as (functionName & Hkey & ->).
    { destruct query; try discriminate Hcall;
        destruct (toPropertyKey _) as [key |]; try discriminate Hcall;
        injection Hcall as <-; now exists key. }
    destruct (batchItemFor_matches_apiQuery ds functionName
                (Params.field query "params")) as (outcome & Ho & Hr).
    exists (batchItemFor ds functionName (Params.field query "params")),
      functionName, outcome.
    repeat (split; [assumption |]). assumption.
  - intros others results' i.
    destruct (arrayMap (batchItem ds) others) as [mapped' |] eqn:M';
      [| discriminate].
    intros [= <-] H. destruct (arrayMap_Returned _ _ _ M') as [Hlen' Hnth'].
    destruct (nth_error queries i) as [query |] eqn:Hq.
    + destruct (Hnth i query Hq) as (item & -> & Hitem).
      destruct (Hnth' i query H) as (item' & -> & Hitem').
      congruence.
    + apply nth_error_None in Hq, H. rewrite <- Hlen in Hq.
      rewrite <- Hlen' in H. apply nth_error_None in Hq, H. congruence.
Qed.

(** [/api/batch] answers with results unless the callback throws on
    some element: then the request ends in that exception, whatever the
    other elements are. *)
Lemma apiBatch_throws_iff (ds : Dataset) (queries : list json) :
  (exists e, apiBatch ds (JArray queries) = Thrown e) <->
  exists query, In query queries /\ exists e, batchItem ds query = Thrown e.
Proof.
  rewrite <- arrayMap_Thrown_iff. unfold apiBatch.
  destruct (arrayMap (batchItem ds) queries) as [mapped | e].
  - split; intros [e H]; discriminate H.
  - split; intros _; now exists e.
Qed.

(** C5: the code on a batch that names an unknown function.  The item
    it gets is [{ error }] alone: it has no [success] key, so it is
    tagged neither as a success nor as a failure, while the single
    invocation marks the same call as a failure with status 404.  This
    is the one outcome that goes untagged: for every element the
    callback returns an item for, the item has no tag exactly when the
    single invocation answers 404, is tagged as a success exactly when
    it answers 200, and as a failure exactly when it answers 400 or
    500. *)
Theorem apiBatch_unknown_function_untagged (ds : Dataset) :
  (exists item,
     apiBatch ds
       (JArray [ JObject [ ("functionName", JString "nope");
                           ("params", JObject []) ] ])
     = Returned (BatchResults [item]) /\
     item = mkBatchItem None None (Some "Function 'nope' not found") None /\
     success item = None /\
     ~ taggedSuccess item /\
     ~ taggedFailure item /\
     apiQuery ds "nope" (JObject [])
     = mkResponse 404 None (Some "Function 'nope' not found") None) /\
  (forall query item,
     batchItem ds query = Returned item ->
     exists functionName,
       toPropertyKey (Params.field query "functionName")
       = Returned functionName /\
       (success item = None <->
        status (apiQuery ds functionName (Params.field query "params")) = 404) /\
       (taggedSuccess item <->
        status (apiQuery ds functionName (Params.field query "params")) = 200) /\
       (taggedFailure item <->
        status (apiQuery ds functionName (Params.field query "params")) = 400 \/
        status (apiQuery ds functionName (Params.field query "params")) = 500)).
Proof.
  split.
  - eexists. split; [reflexivity |]. split; [reflexivity |].
    split; [reflexivity |].
    split; [intros [H _]; discriminate H |].
    split; [intros [H _]; discriminate H | reflexivity].
  - intros query item H. unfold batchItem in H.
    assert (exists functionName,
              toPropertyKey (Params.field query "functionName")
              = Returned functionName /\
              item = batchItemFor ds functionName (Params.field query "params"))
      as (functionName & Hkey & ->).
    { destruct query; try discriminate H;
        destruct (toPropertyKey _) as [key |]; try discriminate H;
        injection H as <-; now exists key. }
    exists functionName. split; [assumption |]. apply batchItemFor_tag.
Qed.

(** The batch of the specification: a valid call followed by a call with
    invalid parameters. *)
Example apiBatch_valid_then_invalid :
  apiBatch MockData.data
    (JArray
       [ queryObject (mkBatchQuery "getEntity" (getEntityParams author "auth_001"));
         queryObject (mkBatchQuery "getEntity"
                        (JObject [("entityType", JString "author")])) ])
  = Returned (BatchResults
      [ mkBatchItem (Some true) (Some (EntityResult (Some MockData.auth_001))) None None;
        mkBatchItem (Some false) None (Some "Invalid parameters")
          (Some [ mkIssue (invalid_type expect_string type_undefined)
                    [Key "entityId"] ]) ]).
Proof. vm_compute. reflexivity. Qed.

(** An execution failure inside a batch leaves its neighbours alone: the
    trend of an inherited key with a start year throws inside the [try]
    block.  The element without [params] names no registered function. *)
Example apiBatch_execution_failure :
  apiBatch MockData.data
    (JArray
       [ queryObject
           (mkBatchQuery "getTrend"
              (JObject [ ("entityId", JString "constructor");
                         ("metric", JString "publications");
                         ("startYear", JNumber 2020) ]));
         JObject [("functionName", JString "nope")];
         queryObject (mkBatchQuery "getEntity" (getEntityParams journal "jour_003")) ])
  = Returned (BatchResults
      [ mkBatchItem (Some false) None (Some "Execution failed") None;
        mkBatchItem None None (Some "Function 'nope' not found") None;
        mkBatchItem (Some true) (Some (EntityResult (Some MockData.jour_003))) None None ]).
Proof. vm_compute. reflexivity. Qed.

(** Elements that are no query objects.  A number, a string or an array
    has no [functionName]: the key is [undefined].  A [functionName]
    that is no string is converted: a number to its decimal, an array to
    its elements joined by commas, a plain object to [[object Object]]. *)
Example apiBatch_other_elements :
  apiBatch MockData.data
    (JArray
       [ JNumber 7; JString "getEntity"; JArray [];
         JObject [("functionName", JNumber 1.5)];
         JObject [("functionName", JArray [JString "getEntity"]);
                  ("params", getEntityParams author "auth_003")];
         JObject [("functionName", JArray [JNull; JNumber 1e21; JBool true])];
         JObject [("functionName", JObject [])] ])
  = Returned (BatchResults
      [ mkBatchItem None None (Some "Function 'undefined' not found") None;
        mkBatchItem None None (Some "Function 'undefined' not found") None;
        mkBatchItem None None (Some "Function 'undefined' not found") None;
        mkBatchItem None None (Some "Function '1.5' not found") None;
        mkBatchItem (Some true) (Some (EntityResult (Some MockData.auth_003))) None None;
        mkBatchItem None None (Some "Function ',1e+21,true' not found") None;
        mkBatchItem None None (Some "Function '[object Object]' not found") None ]).
Proof. vm_compute. reflexivity. Qed.

(** An element the callback throws on ends the whole request, valid
    neighbours included: a [null] element cannot be destructured, and a
    [functionName] object with a [toString] member of its own has no
    key. *)
Example apiBatch_aborted :
  apiBatch MockData.data
    (JArray
       [ queryObject (mkBatchQuery "getEntity" (getEntityParams author "auth_001"));
         JNull ])
  = Thrown (TypeError
      "Cannot destructure property 'functionName' of 'query' as it is null.") /\
  apiBatch MockData.data
    (JArray
       [ queryObject (mkBatchQuery "getEntity" (getEntityParams author "auth_001"));
         JObject [("functionName", JObject [("toString", JNull)])] ])
  = Thrown (TypeError "Cannot convert object to primitive value") /\
  apiBatch MockData.data (JObject [])
  = Returned (BatchRejected 400 "queries must be an array").
Proof. repeat split; vm_compute; reflexivity. Qed.

(* ================================================================== *)
(** * Introspection *)
(* ================================================================== *)

(** A field wrapped in [.optional()] accepts [undefined], whatever it
    wraps; the plain kinds do not. *)
Lemma isOptional_ZodOptional (inner : ZodType) (description : option string) :
  isOptional (ZodOptional inner description) = true.
Proof. reflexivity. Qed.

Lemma isOptional_plain (fieldSchema : ZodType) :
  markedOptional fieldSchema = false -> givenDefault fieldSchema = false ->
  isOptional fieldSchema = false.
Proof. destruct fieldSchema; simpl; intros; try discriminate; reflexivity. Qed.

Lemma zodToJsonSchema_object (shape : list (string * ZodType))
    (description : option string) :
  zodToJsonSchema (ZodObject shape description)
  = let required :=
      map fst (filter (fun entry => negb (isOptional (snd entry))) shape) in
    SchemaObject
      (map (fun entry => (fst entry, zodToJsonSchema (snd entry))) shape)
      (match required with [] => None | _ => Some required end).
Proof. reflexivity. Qed.

(** In the rendering of any object schema, a key is listed as required
    exactly when its schema rejects [undefined]. *)
Lemma zodToJsonSchema_required (shape : list (string * ZodType))
    (description : option string) (key : string) :
  In key (requiredOf (zodToJsonSchema (ZodObject shape description))) <->
  exists fieldSchema, In (key, fieldSchema) shape /\ isOptional fieldSchema = false.
Proof.
  rewrite zodToJsonSchema_object.
  set (required := map fst (filter (fun entry => negb (isOptional (snd entry))) shape)).
  transitivity (In key required);
    [destruct required; simpl; tauto |].
  unfold required. rewrite in_map_iff. split.
  - intros ([k s] & <- & H). apply filter_In in H. destruct H as [Hin Hopt].
    exists s. split; [assumption |]. now apply negb_true_iff in Hopt.
  - intros (s & Hin & Hopt). exists (key, s). split; [reflexivity |].
    apply filter_In. split; [assumption |]. simpl. now rewrite Hopt.
Qed.

Ltac decide_required :=
  simpl; split;
  [ intros H; first [ split; reflexivity | exfalso; intuition discriminate ]
  | intros [H1 H2]; first [ discriminate | tauto ] ].

(** C9: [/api/functions] lists the six functions of the registry, each
    once and in the order of the registry, with its description; in the
    rendered parameters of each a field is listed as required exactly
    when its registered schema neither marks it optional nor gives it a
    default.  So [limit] (default 10), [metricNames], [startYear] and
    [endYear] are not required, and every other field is. *)
Theorem apiFunctions_enumerates_registry (ds : Dataset) :
  map fn_name (apiFunctions ds) = map fst (queryFunctions ds) /\
  map fn_name (apiFunctions ds)
  = [ "getEntity"; "searchEntities"; "getMetrics"; "compareEntities";
      "getTrend"; "getTopEntities" ] /\
  NoDup (map fn_name (apiFunctions ds)) /\
  (forall name config,
     In (name, config) (queryFunctions ds) ->
     exists definition,
       In definition (apiFunctions ds) /\
       fn_name definition = name /\
       fn_description definition = description config /\
       map fst (propertiesOf (fn_parameters definition))
       = map fst (shapeOf (schema config)) /\
       forall key fieldSchema,
         In (key, fieldSchema) (shapeOf (schema config)) ->
         (In key (requiredOf (fn_parameters definition)) <->
          markedOptional fieldSchema = false /\ givenDefault fieldSchema = false)) /\
  map (fun definition => (fn_name definition, requiredOf (fn_parameters definition)))
      (apiFunctions ds)
  = [ ("getEntity", ["entityType"; "entityId"]);
      ("searchEntities", ["entityType"; "query"]);
      ("getMetrics", ["entityType"; "entityId"]);
      ("compareEntities", ["entityType"; "entityIdA"; "entityIdB"; "metric"]);
      ("getTrend", ["entityId"; "metric"]);
      ("getTopEntities", ["entityType"; "metric"]) ].
Proof.
  split; [reflexivity |]. split; [reflexivity |]. split.
  - simpl. repeat (constructor; [simpl; intuition discriminate |]). constructor.
  - split; [| reflexivity].
    intros name config Hin.
    exists (mkFunctionDefinition name (description config)
              (zodToJsonSchema (schema config))).
    split; [exact (in_map _ _ _ Hin) |].
    split; [reflexivity |]. split; [reflexivity |].
    simpl in Hin.
    repeat (destruct Hin as [[= <- <-] | Hin]; [| try contradiction]);
      (split; [reflexivity |]);
      intros key fieldSchema Hf; simpl in Hf;
      repeat (destruct Hf as [[= <- <-] | Hf]; [| try contradiction]);
      decide_required.
Qed.

(* ================================================================== *)
(** * Validated parameters have the declared type *)
(* ================================================================== *)

Section ValidatedParams.

Variable ds : Dataset.

Lemma parse_object_is_object shape d raw validated :
  parse (ZodObject shape d) raw = Valid validated ->
  exists fields, raw = JObject fields.
Proof. destruct raw; try discriminate. intros _. now eexists. Qed.

Lemma parse_object_nil d fields validated :
  parse (ZodObject [] d) (JObject fields) = Valid validated ->
  validated = JObject [].
Proof. simpl. congruence. Qed.

(** A failed parse reports at least one issue. *)
Lemma parse_invalid_nonempty schema data : parse schema data <> Invalid [].
Proof.
  revert data.
  induction schema as [d | d | d | options d | element IH d | inner IH d
                      | inner IH defaultValue d | shape d];
    intros data; simpl.
  - destruct data; discriminate.
  - destruct data as [| | | f | | |]; try discriminate.
    destruct (PrimFloat.is_nan f); discriminate.
  - destruct data; discriminate.
  - destruct data as [| | | | s | |]; try discriminate.
    destruct (existsb _ _); discriminate.
  - destruct data as [| | | | | items |]; try discriminate.
    destruct (parseItems _ 0 items) as [values [| issue issues]]; discriminate.
  - destruct data; try apply IH. discriminate.
  - destruct data; apply IH.
  - destruct data as [| | | | | | fields]; try discriminate.
    destruct (parseShape parse fields shape) as [values [| issue issues]];
      discriminate.
Qed.

(** The first field of a shape is parsed from the property of its
    name; the rest of the shape is parsed as an object of its own. *)
Lemma parse_object_cons key fieldSchema rest d fields validated :
  parse (ZodObject ((key, fieldSchema) :: rest) d) (JObject fields)
  = Valid validated ->
  exists v values,
    parse fieldSchema (Params.field (JObject fields) key) = Valid v /\
    parse (ZodObject rest d) (JObject fields) = Valid (JObject values) /\
    validated = JObject (match v with
                         | JUndefined => values
                         | _ => (key, v) :: values
                         end).
Proof.
  simpl.
  destruct (parseShape parse fields rest) as [values issues].
  destruct (parse fieldSchema _) as [v | here] eqn:E.
  - destruct v; destruct issues; simpl; try discriminate;
      intros [= <-]; eexists _, values;
      (split; [reflexivity |]); split; reflexivity.
  - destruct here as [| issue here];
      [now apply parse_invalid_nonempty in E | discriminate].
Qed.

Lemma parse_string d data v :
  parse (ZodString d) data = Valid v -> exists s, v = JString s.
Proof. destruct data; simpl; try discriminate. intros [= <-]. now eexists. Qed.

Lemma parse_entityType d data v :
  parse (ZodEnum entityTypeOptions d) data = Valid v ->
  exists entityType, v = JString (entityTypeName entityType).
Proof.
  destruct data as [| | | | s | |]; simpl; try discriminate.
  destruct (String.eqb_spec s "author") as [-> | _];
    [intros [= <-]; now exists author |].
  destruct (String.eqb_spec s "institution") as [-> | _];
    [intros [= <-]; now exists institution |].
  destruct (String.eqb_spec s "journal") as [-> | _];
    [intros [= <-]; now exists journal |].
  discriminate.
Qed.

Lemma parse_number d data v :
  parse (ZodNumber d) data = Valid v -> exists f, v = JNumber f.
Proof.
  destruct data as [| | | f | | |]; simpl; try discriminate.
  destruct (PrimFloat.is_nan f); [discriminate |].
  intros [= <-]. now eexists.
Qed.

Lemma parse_limit d d' d'' data v :
  parse (ZodDefault (ZodOptional (ZodNumber d) d') (JNumber 10) d'') data
  = Valid v ->
  exists f, v = JNumber f.
Proof.
  destruct data as [| | | f | | |]; simpl; try discriminate.
  - intros [= <-]. now eexists.
  - destruct (PrimFloat.is_nan f); [discriminate |].
    intros [= <-]. now eexists.
Qed.

Lemma parse_optional_number d d' data v :
  parse (ZodOptional (ZodNumber d) d') data = Valid v ->
  exists year, Params.asOptionalNumber v = Some year.
Proof.
  destruct data as [| | | f | | |]; simpl; try discriminate.
  - intros [= <-]. now eexists.
  - destruct (PrimFloat.is_nan f); [discriminate |].
    intros [= <-]. now eexists.
Qed.

Lemma parseItems_strings d items index values issues :
  parseItems (parse (ZodString d)) index items = (values, issues) ->
  exists l, Params.asStrings values = Some l.
Proof.
  revert index values issues.
  induction items as [| item items IH]; intros index values issues; simpl.
  - intros [= <- <-]. now exists [].
  - destruct (parseItems _ (S index) items) as [vs rest] eqn:E.
    destruct (IH _ _ _ E) as [l Hl].
    destruct item; intros [= <- <-]; try (now exists l).
    simpl. rewrite Hl. eexists. reflexivity.
Qed.

Lemma parse_optional_strings d d' d'' data v :
  parse (ZodOptional (ZodArray (ZodString d) d') d'') data = Valid v ->
  exists names, Params.asOptionalStrings v = Some names.
Proof.
  destruct data as [| | | | | items |]; simpl; try discriminate.
  - intros [= <-]. now eexists.
  - destruct (parseItems _ 0 items) as [values issues] eqn:E.
    destruct issues; [| discriminate]. intros [= <-].
    destruct (parseItems_strings d _ _ _ _ E) as [l Hl].
    simpl. rewrite Hl. now eexists.
Qed.

Lemma getTrend_throws entityId metric startYear endYear e :
  getTrend ds entityId metric startYear endYear = Thrown e ->
  e = TypeError "filtered.filter is not a function".
Proof.
  unfold getTrend, filterByYears, filterIfGiven.
  destruct (getProperty (mockTrends ds) entityId);
    destruct startYear as [s |], endYear as [y |];
    repeat match goal with
           | |- context [numberTruthy ?b] => destruct (numberTruthy b)
           end; simpl; congruence.
Qed.

Ltac open_object H validated :=
  let fields := fresh "fields" in
  destruct (parse_object_is_object _ _ _ _ H) as [fields ->];
  repeat
    (let v := fresh "v" in let values := fresh "values" in
     let Hv := fresh "Hv" in let Heq := fresh "Heq" in
     apply parse_object_cons in H;
     destruct H as (v & values & Hv & H & Heq);
     first [ subst validated | injection Heq as -> ]);
  apply parse_object_nil in H; injection H as ->.

(** Whatever [schema.parse] lets through, the registered function reads
    at its parameter type. *)
Lemma validated_params_are_typed name config raw validated :
  In (name, config) (queryFunctions ds) ->
  parse (schema config) raw = Valid validated ->
  function config validated <> illTyped.
Proof.
  intros Hin H. simpl in Hin.
  repeat (destruct Hin as [[= <- <-] | Hin]; [| try contradiction]);
    cbv [schema getEntitySchema searchEntitiesSchema getMetricsSchema
         compareEntitiesSchema getTrendSchema getTopEntitiesSchema] in H;
    open_object H validated;
    repeat match goal with
           | Hv : parse (ZodEnum entityTypeOptions _) _ = Valid _ |- _ =>
               apply parse_entityType in Hv; destruct Hv as [[] ->]
           | Hv : parse (ZodString _) _ = Valid _ |- _ =>
               apply parse_string in Hv; destruct Hv as [? ->]
           | Hv : parse (ZodDefault _ _ _) _ = Valid _ |- _ =>
               apply parse_limit in Hv; destruct Hv as [? ->]
           | Hv : parse (ZodOptional (ZodNumber _) _) _ = Valid ?v |- _ =>
               apply parse_optional_number in Hv; destruct Hv as [? Hv];
               destruct v; try discriminate Hv
           | Hv : parse (ZodOptional (ZodArray _ _) _) _ = Valid ?v |- _ =>
               apply parse_optional_strings in Hv; destruct Hv as [? Hv];
               destruct v; try discriminate Hv
           end;
    unfold function, callGetEntity, callSearchEntities, callGetMetrics,
      callCompareEntities, callGetTrend, callGetTopEntities;
    simpl;
    repeat match goal with
           | Hv : _ = Some _ |- _ => simpl in Hv; rewrite Hv
           end;
    try discriminate;
    match goal with
    | |- context [getTrend ?a ?b ?c ?d ?e] =>
        let G := fresh "G" in
        destruct (getTrend a b c d e) eqn:G;
        [discriminate | apply getTrend_throws in G; subst; discriminate]
    end.
Qed.
End ValidatedParams.

(* ================================================================== *)
(** * Further properties of the query functions *)
(* ================================================================== *)

Section QueryFacts.

Variable ds : Dataset.

Lemma filterIfGiven_series (bound : option float)
    (keep : float -> TrendPoint -> bool) (points : list TrendPoint) :
  filterIfGiven bound keep (Series points)
  = Returned (Series (match effectiveBound bound with
                      | Some b => filter (keep b) points
                      | None => points
                      end)).
Proof.
  destruct bound as [b |]; simpl; [| reflexivity].
  destruct (numberTruthy b); reflexivity.
Qed.

Lemma filterIfGiven_builtin (bound : option float)
    (keep : float -> TrendPoint -> bool) (key : string) :
  filterIfGiven bound keep (Builtin key)
  = match effectiveBound bound with
    | Some _ => Thrown (TypeError "filtered.filter is not a function")
    | None => Returned (Builtin key)
    end.
Proof.
  destruct bound as [b |]; simpl; [| reflexivity].
  destruct (numberTruthy b); reflexivity.
Qed.

Lemma In_sliceFromStart {A : Type} (l : list A) (limit : float) (x : A) :
  In x (sliceFromStart l limit) -> In x l.
Proof.
  unfold sliceFromStart. intros H.
  rewrite <- (firstn_skipn (sliceEnd (List.length l) limit) l).
  apply in_or_app. now left.
Qed.

Lemma In_searchEntities entityType query limit e :
  In e (searchEntities ds entityType query limit) ->
  In e (matching ds entityType query).
Proof. apply In_sliceFromStart. Qed.

Lemma In_getTopEntities entityType metric limit e :
  In e (getTopEntities ds entityType metric limit) ->
  In e (collection ds entityType).
Proof.
  intros H. apply In_sliceFromStart in H.
  eapply Permutation_in; [| exact H].
  apply Permutation_sym, sort_perm.
Qed.

End QueryFacts.

(** X1: For an id that has a series, [getTrend] returns the points of the
    series that lie within the bounds, in the order of the series, a
    bound of [0] or [NaN] counting as omitted; it neither throws nor
    answers with the absent value. *)
Theorem getTrend_stored_series (ds : Dataset) (entityId metric : string)
    (startYear endYear : option float) (points : list TrendPoint) :
  getProperty (mockTrends ds) entityId = Own points ->
  getTrend ds entityId metric startYear endYear
  = Returned (Some (Series
      (filter (withinBounds (effectiveBound startYear) (effectiveBound endYear))
              points))).
Proof.
  intros Hown. unfold getTrend, filterByYears. rewrite Hown.
  rewrite filterIfGiven_series, filterIfGiven_series. unfold withinBounds.
  destruct (effectiveBound startYear) as [s |],
           (effectiveBound endYear) as [e |];
    rewrite ?filter_filter; simpl.
  - reflexivity.
  - do 3 f_equal. apply filter_ext. intros p. now rewrite andb_true_r.
  - reflexivity.
  - now rewrite filter_all.
Qed.

(** The series of [auth_001] from 2021 on, with an end year of [0]. *)
Lemma getTrend_stored_series_witness :
  getTrend MockData.data "auth_001" "publications" (Some 2021%float) (Some 0%float)
  = Returned (Some (Series
      (filter (withinBounds (effectiveBound (Some 2021%float))
                            (effectiveBound (Some 0%float)))
              (MockData.series 12 15 18 22 19)))).
Proof.
  apply (getTrend_stored_series MockData.data "auth_001" "publications").
  reflexivity.
Defined.

(** X2: [getTrend] throws in one situation only: the id names a member of
    [Object.prototype] and a bound is given that is neither [0] nor
    [NaN]. *)
Theorem getTrend_throws_exactly (ds : Dataset) (entityId metric : string)
    (startYear endYear : option float) :
  (exists e, getTrend ds entityId metric startYear endYear = Thrown e) <->
  (exists key, getProperty (mockTrends ds) entityId = Inherited key) /\
  (effectiveBound startYear <> None \/ effectiveBound endYear <> None).
Proof.
  unfold getTrend, filterByYears.
  destruct (getProperty (mockTrends ds) entityId) as [points | key |].
  - rewrite filterIfGiven_series, filterIfGiven_series. split.
    + intros [e H]. discriminate.
    + intros [[key H] _]. discriminate.
  - rewrite filterIfGiven_builtin.
    destruct (effectiveBound startYear) as [s |].
    + split; [| intros _; eexists; reflexivity].
      intros _. split; [now exists key | left; discriminate].
    + rewrite filterIfGiven_builtin.
      destruct (effectiveBound endYear) as [e |].
      * split; [| intros _; eexists; reflexivity].
        intros _. split; [now exists key | right; discriminate].
      * split; [intros [e H]; discriminate |].
        intros [_ [H | H]]; now elim H.
  - split; [intros [e H]; discriminate | intros [[key H] _]; discriminate].
Qed.

(** X3: A comparison names the two entities that were asked for, in the order
    they were asked for, with the names [getEntity] gives them. *)
Theorem compareEntities_echoes_request (ds : Dataset) (entityType : EntityType)
    (entityIdA entityIdB metric : string) (r : Comparison) :
  compareEntities ds entityType entityIdA entityIdB metric = Some r ->
  compared_id (entityA r) = entityIdA /\
  compared_id (entityB r) = entityIdB /\
  option_map name (getEntity ds entityType entityIdA)
  = Some (compared_name (entityA r)) /\
  option_map name (getEntity ds entityType entityIdB)
  = Some (compared_name (entityB r)).
Proof.
  rewrite compareEntities_cases.
  destruct (getEntity ds entityType entityIdA) as [a |] eqn:GA; [| discriminate].
  destruct (getEntity ds entityType entityIdB) as [b |] eqn:GB; [| discriminate].
  destruct (_ || _); [discriminate |]. intros [= <-]. simpl.
  apply getEntity_Some in GA, GB. intuition.
Qed.

Lemma compareEntities_echoes_request_witness :
  exists r,
    compareEntities MockData.data author "auth_002" "auth_001" "hIndex" = Some r /\
    compared_id (entityA r) = "auth_002" /\ compared_id (entityB r) = "auth_001".
Proof.
  eexists. split; [reflexivity |].
  destruct (compareEntities_echoes_request MockData.data author
              "auth_002" "auth_001" "hIndex" _ eq_refl) as (HA & HB & _).
  split; [exact HA | exact HB].
Defined.

(** Subtracting a finite number from itself gives zero, and zero stays
    zero when divided by a finite number other than zero and scaled. *)
Module SelfDifference.

Lemma finite_cases (f : float) :
  finiteNumber f = true ->
  (exists s, Prim2SF f = S754_zero s) \/
  (exists s m e, Prim2SF f = S754_finite s m e).
Proof.
  unfold finiteNumber. destruct (Prim2SF f) as [s | s | | s m e];
    try discriminate; intros _; [left | right]; eauto.
Qed.

Lemma SFsub_self prec emax (x : spec_float) :
  (exists s, x = S754_zero s) \/ (exists s m e, x = S754_finite s m e) ->
  exists s, SFsub prec emax x x = S754_zero s.
Proof.
  intros [[s ->] | (s & m & e & ->)].
  - destruct s; simpl; eauto.
  - unfold SFsub. rewrite Z.sub_diag. simpl. eauto.
Qed.

Lemma sub_self (f : float) :
  finiteNumber f = true -> exists s, Prim2SF (f - f) = S754_zero s.
Proof.
  intros H. rewrite sub_spec. apply SFsub_self. now apply finite_cases.
Qed.

Lemma eqb_zero (f : float) (s : bool) :
  Prim2SF f = S754_zero s -> (f =? 0)%float = true.
Proof. intros H. rewrite eqb_spec, H. reflexivity. Qed.

Lemma isZero_false_finite (f : float) :
  finiteNumber f = true -> isZero f = false ->
  exists s m e, Prim2SF f = S754_finite s m e.
Proof.
  intros Hf Hz. destruct (finite_cases f Hf) as [[s H] | H]; [| assumption].
  unfold isZero in Hz. rewrite (eqb_zero f s H) in Hz. discriminate.
Qed.

Lemma zero_ratio_percent (d f : float) :
  (exists s, Prim2SF d = S754_zero s) ->
  (exists s m e, Prim2SF f = S754_finite s m e) ->
  ((d / f) * 100 =? 0)%float = true.
Proof.
  intros [sd Hd] (s & m & e & Hf).
  apply (eqb_zero _ (xorb (xorb sd s) false)).
  rewrite mul_spec, div_spec, Hd, Hf. reflexivity.
Qed.

End SelfDifference.

(** X4: Comparing an entity with itself on a metric whose value is a finite
    number gives a difference and a percentage equal to [0]. *)
Theorem compareEntities_with_itself (ds : Dataset) (entityType : EntityType)
    (entityId metric : string) (e : Entity) (f : float) :
  getEntity ds entityType entityId = Some e ->
  getProperty (metrics e) metric = Own (MNumber f) ->
  finiteNumber f = true ->
  exists r,
    compareEntities ds entityType entityId entityId metric = Some r /\
    (difference r =? 0)%float = true /\
    (percentDifference r =? 0)%float = true.
Proof.
  intros G V Hf. rewrite compareEntities_cases, G.
  unfold comparisonOf. rewrite V. simpl. eexists. split; [reflexivity |].
  simpl. destruct (SelfDifference.sub_self f Hf) as [s Hs]. split.
  - exact (SelfDifference.eqb_zero _ s Hs).
  - destruct (isZero f) eqn:Z; [reflexivity |].
    apply SelfDifference.zero_ratio_percent; [now exists s |].
    now apply SelfDifference.isZero_false_finite.
Qed.

Lemma compareEntities_with_itself_witness :
  exists r,
    compareEntities MockData.data journal "jour_001" "jour_001" "sjr" = Some r /\
    (difference r =? 0)%float = true /\
    (percentDifference r =? 0)%float = true.
Proof.
  apply (compareEntities_with_itself MockData.data journal "jour_001" "sjr"
           MockData.jour_001 14.23%float); reflexivity.
Defined.

(** X5: Whatever [searchEntities] or [getTopEntities] returns is stored in
    the selected collection, and, ids being unique there, [getEntity]
    finds that very entity under its id. *)
Theorem listed_entities_are_retrievable (ds : Dataset) (entityType : EntityType)
    (query metric : string) (limit : float) (e : Entity) :
  NoDup (map id (collection ds entityType)) ->
  In e (searchEntities ds entityType query limit) \/
  In e (getTopEntities ds entityType metric limit) ->
  In e (collection ds entityType) /\
  getEntity ds entityType (id e) = Some e.
Proof.
  intros Hnd H.
  assert (Hin : In e (collection ds entityType)).
  { destruct H as [H | H].
    - apply In_searchEntities in H. unfold matching in H.
      apply filter_In in H. tauto.
    - now apply In_getTopEntities in H. }
  split; [assumption |]. unfold getEntity. now apply find_by_unique_id.
Qed.

Lemma listed_entities_are_retrievable_witness :
  In MockData.auth_001 (collection MockData.data author) /\
  getEntity MockData.data author (id MockData.auth_001) = Some MockData.auth_001.
Proof.
  apply (listed_entities_are_retrievable MockData.data author "chen" "citations"
           10%float MockData.auth_001).
  - simpl. repeat (constructor; [simpl; intuition discriminate |]). constructor.
  - left. vm_compute. left. reflexivity.
Defined.

(** X6: With a limit whose integer part is at least the size of the
    collection, [getTopEntities] returns every entity of the collection
    exactly once: the result is a rearrangement of the collection. *)
Theorem getTopEntities_rearranges_collection (ds : Dataset)
    (entityType : EntityType) (metric : string) (limit : float) (z : Z) :
  toIntegerOrInfinity limit = Finite z ->
  (Z.of_nat (List.length (collection ds entityType)) <= z)%Z ->
  Permutation (collection ds entityType)
    (getTopEntities ds entityType metric limit).
Proof.
  intros H Hz. unfold getTopEntities.
  rewrite (sliceFromStart_nonnegative _ limit z H) by lia.
  rewrite firstn_all2 by (rewrite sort_length; lia).
  apply sort_perm.
Qed.

Lemma getTopEntities_rearranges_collection_witness :
  Permutation (collection MockData.data institution)
    (getTopEntities MockData.data institution "publications" 10%float).
Proof.
  apply (getTopEntities_rearranges_collection MockData.data institution
           "publications" 10%float 10).
  - vm_compute. reflexivity.
  - simpl. lia.
Defined.

Lemma string_app_assoc (a b c : string) :
  ((a ++ b) ++ c)%string = (a ++ b ++ c)%string.
Proof. induction a as [| x a IH]; simpl; congruence. Qed.

Lemma includes_prefix_of_search (s x y : string) :
  includes s (x ++ y)%string = true ->
  includes s x = true /\ includes s y = true.
Proof.
  rewrite !StringFacts.includes_iff. intros (pre & post & ->). split.
  - exists pre, (y ++ post)%string. now rewrite string_app_assoc.
  - exists (pre ++ x)%string, post. now rewrite !string_app_assoc.
Qed.

(** X7: Extending the query never brings in new entities: every result for
    the query [q ++ r] is a match of [q] and a match of [r]. *)
Theorem searchEntities_longer_query_narrows (ds : Dataset)
    (entityType : EntityType) (q r : string) (limit : float) (e : Entity) :
  In e (searchEntities ds entityType (q ++ r)%string limit) ->
  In e (matching ds entityType q) /\ In e (matching ds entityType r).
Proof.
  intros H. apply In_searchEntities in H. unfold matching in *.
  rewrite !filter_In in *. destruct H as [Hin H].
  rewrite StringFacts.toLowerCase_app in H.
  apply includes_prefix_of_search in H. tauto.
Qed.

Lemma searchEntities_longer_query_narrows_witness :
  In MockData.auth_001 (matching MockData.data author "Dr. ") /\
  In MockData.auth_001 (matching MockData.data author "Sarah").
Proof.
  apply (searchEntities_longer_query_narrows MockData.data author
           "Dr. " "Sarah" 10%float).
  vm_compute. left. reflexivity.
Defined.

(* ================================================================== *)
(** * Further properties of the invocation boundary *)
(* ================================================================== *)

Section BoundaryFacts.

Variable ds : Dataset.

Lemma ownProperty_None_iff {A : Type} (obj : list (string * A)) (key : string) :
  ownProperty obj key = None <-> ~ In key (map fst obj).
Proof.
  induction obj as [| [k v] obj IH]; simpl; [tauto |].
  destruct (String.eqb_spec k key) as [-> | N].
  - split; [discriminate | intros H; elim H; now left].
  - rewrite IH. tauto.
Qed.

Lemma ownProperty_Some_In {A : Type} (obj : list (string * A)) (key : string)
    (v : A) :
  ownProperty obj key = Some v -> In (key, v) obj.
Proof.
  induction obj as [| [k w] obj IH]; simpl; [discriminate |].
  destruct (String.eqb_spec k key) as [-> | N].
  - intros [= ->]. now left.
  - intros H. right. now apply IH.
Qed.

Lemma inPrototype_iff (key : string) :
  inPrototype key = true <-> In key objectPrototypeKeys.
Proof.
  unfold inPrototype. rewrite existsb_exists. split.
  - intros (k & Hin & E). apply String.eqb_eq in E. now subst.
  - intros H. exists key. split; [assumption | apply String.eqb_refl].
Qed.

Lemma registry_keys : map fst (queryFunctions ds) = registryNames.
Proof. reflexivity. Qed.

Lemma getProperty_registry_Undefined (functionName : string) :
  getProperty (queryFunctions ds) functionName = Undefined <->
  ~ In functionName registryNames /\ ~ In functionName objectPrototypeKeys.
Proof.
  unfold getProperty. rewrite <- registry_keys, <- ownProperty_None_iff.
  rewrite <- inPrototype_iff.
  destruct (ownProperty (queryFunctions ds) functionName) as [config |].
  - split; [discriminate | intros [H _]; discriminate].
  - destruct (inPrototype functionName).
    + split; [discriminate | intros [_ H]; now elim H].
    + split; [intros _; split; [reflexivity | discriminate] | reflexivity].
Qed.

Lemma getProperty_registry_Inherited (functionName : string) :
  (exists key, getProperty (queryFunctions ds) functionName = Inherited key) <->
  In functionName objectPrototypeKeys.
Proof.
  unfold getProperty.
  destruct (ownProperty (queryFunctions ds) functionName) as [config |] eqn:E.
  - split; [intros [key H]; discriminate |].
    intros H. apply ownProperty_Some_In in E.
    apply (in_map fst) in E. rewrite registry_keys in E. exfalso.
    simpl in E, H.
    repeat (destruct E as [<- | E]; [intuition discriminate |]).
    contradiction.
  - rewrite <- inPrototype_iff. destruct (inPrototype functionName).
    + split; [reflexivity | intros _; now eexists].
    + split; [intros [key H]; discriminate | discriminate].
Qed.

Lemma getProperty_registry_Own (functionName : string) (config : QueryConfig) :
  getProperty (queryFunctions ds) functionName = Own config ->
  In (functionName, config) (queryFunctions ds).
Proof.
  unfold getProperty.
  destruct (ownProperty (queryFunctions ds) functionName) as [c |] eqn:E.
  - intros [= <-]. now apply ownProperty_Some_In.
  - destruct (inPrototype functionName); discriminate.
Qed.

Lemma registered_config (functionName : string) (config : QueryConfig) :
  In (functionName, config) (queryFunctions ds) ->
  getProperty (queryFunctions ds) functionName = Own config /\
  exists shape d, schema config = ZodObject shape d.
Proof.
  intros Hin. simpl in Hin.
  repeat (destruct Hin as [[= <- <-] | Hin]; [| try contradiction]);
    (split; [reflexivity | eexists; eexists; reflexivity]).
Qed.

(** The fields a shape reads are all that parsing depends on. *)
Lemma parseShape_ext (parseField : ZodType -> json -> ParseResult)
    (fields fields' : list (string * json)) (shape : list (string * ZodType)) :
  (forall key, In key (map fst shape) ->
     ownProperty fields key = ownProperty fields' key) ->
  parseShape parseField fields shape = parseShape parseField fields' shape.
Proof.
  induction shape as [| [key fieldSchema] shape IH]; intros H; simpl;
    [reflexivity |].
  rewrite IH by (intros k Hk; apply H; now right).
  rewrite (H key) by now left. reflexivity.
Qed.

(** An issue of a field is reported under the key of the field. *)
Lemma parseShape_reports (fields : list (string * json))
    (shape : list (string * ZodType)) (key : string) (fieldSchema : ZodType)
    (issue : ZodIssue) (here : list ZodIssue) :
  In (key, fieldSchema) shape ->
  parse fieldSchema (Params.field (JObject fields) key) = Invalid here ->
  In issue here ->
  In (underPath (Key key) issue) (snd (parseShape parse fields shape)).
Proof.
  intros Hin Hp Hi.
  induction shape as [| [k s] shape IH]; [contradiction |].
  simpl. destruct (parseShape parse fields shape) as [values issues].
  destruct Hin as [[= -> ->] | Hin].
  - simpl in Hp. rewrite Hp. simpl. apply in_or_app. left.
    now apply in_map.
  - specialize (IH Hin). simpl in IH.
    destruct (parse s _) as [v | other]; [destruct v; exact IH |].
    simpl. apply in_or_app. now right.
Qed.

(** Apart from [callGetTrend], a registered function returns or stops on
    parameters that are not of its type. *)
Lemma call_returns_or_illTyped (functionName : string) (config : QueryConfig)
    (validated : json) :
  In (functionName, config) (queryFunctions ds) ->
  functionName <> "getTrend" ->
  (exists r, function config validated = Returned r) \/
  function config validated = illTyped.
Proof.
  intros Hin Hne. simpl in Hin.
  repeat (destruct Hin as [[= <- <-] | Hin]; [| try contradiction]);
    try congruence; simpl;
    unfold callGetEntity, callSearchEntities, callGetMetrics,
      callCompareEntities, callGetTopEntities;
    repeat match goal with
           | |- context [match ?x with Some _ => _ | None => _ end] =>
               destruct x
           end; eauto.
Qed.

Ltac open_validated H validated :=
  let fields := fresh "fields" in
  destruct (parse_object_is_object _ _ _ _ H) as [fields ->];
  repeat
    (let v := fresh "v" in let values := fresh "values" in
     let Hv := fresh "Hv" in let Heq := fresh "Heq" in
     apply parse_object_cons in H;
     destruct H as (v & values & Hv & H & Heq);
     first [ subst validated | injection Heq as -> ]);
  apply parse_object_nil in H; injection H as ->.

(** What [getTrendSchema.parse] lets through is the object a typed caller
    writes. *)
Lemma parse_getTrendSchema (raw validated : json) :
  parse getTrendSchema raw = Valid validated ->
  exists entityId metric startYear endYear,
    validated = getTrendParams entityId metric startYear endYear.
Proof.
  intros H. cbv [getTrendSchema] in H. open_validated H validated.
  repeat match goal with
         | Hv : parse (ZodString _) _ = Valid _ |- _ =>
             apply parse_string in Hv; destruct Hv as [? ->]
         | Hv : parse (ZodOptional (ZodNumber _) _) _ = Valid ?v |- _ =>
             apply parse_optional_number in Hv; destruct Hv as [? Hv];
             destruct v; try discriminate Hv; clear Hv
         end;
    match goal with
    | |- context [("entityId", JString ?e) :: ("metric", JString ?m) :: ?tl] =>
        exists e, m
    end.
  all: first [ now exists None, None
             | eexists None, (Some _); reflexivity
             | eexists (Some _), None; reflexivity
             | eexists (Some _), (Some _); reflexivity ].
Qed.

Lemma callGetTrend_typed entityId metric startYear endYear :
  callGetTrend ds (getTrendParams entityId metric startYear endYear)
  = match getTrend ds entityId metric startYear endYear with
    | Returned trend => Returned (TrendResult trend)
    | Thrown e => Thrown e
    end.
Proof. destruct startYear, endYear; reflexivity. Qed.

Lemma parseItems_JString (parseItem : json -> ParseResult) index l :
  (forall s, parseItem (JString s) = Valid (JString s)) ->
  parseItems parseItem index (map JString l) = (map JString l, []).
Proof.
  intros H. revert index. induction l as [| s l IH]; intros index; simpl;
    [reflexivity |]. now rewrite IH, H.
Qed.

Lemma asStrings_JString l : Params.asStrings (map JString l) = Some l.
Proof. induction l as [| s l IH]; simpl; [reflexivity |]. now rewrite IH. Qed.

End BoundaryFacts.

(** X8: [/api/query] answers 404 exactly for a name that is neither a key
    of the registry nor a member of [Object.prototype], whatever the
    body, and the reply then quotes the name. *)
Theorem apiQuery_not_found_exactly (ds : Dataset) (functionName : string)
    (params : json) :
  (status (apiQuery ds functionName params) = 404 <->
   ~ In functionName registryNames /\ ~ In functionName objectPrototypeKeys) /\
  (status (apiQuery ds functionName params) = 404 ->
   apiQuery ds functionName params
   = mkResponse 404 None (Some (notFoundMessage functionName)) None).
Proof.
  rewrite <- (getProperty_registry_Undefined ds). unfold apiQuery.
  destruct (getProperty (queryFunctions ds) functionName) as [config | key |];
    cbn [isUndefined];
    try (destruct (attempt _ _); cbn; (split; [split |]); discriminate).
  cbn. split; [split |]; reflexivity.
Qed.

(** X9: [/api/query] answers 500 in two cases only: the name is a member
    of [Object.prototype] (which has no schema to parse with), or the
    function is [getTrend], the body passes its schema and [getTrend]
    itself throws.  No other registered function can fail. *)
Theorem apiQuery_server_error_exactly (ds : Dataset) (functionName : string)
    (params : json) :
  status (apiQuery ds functionName params) = 500 <->
  In functionName objectPrototypeKeys \/
  (functionName = "getTrend" /\
   exists entityId metric startYear endYear e,
     parse getTrendSchema params
     = Valid (getTrendParams entityId metric startYear endYear) /\
     getTrend ds entityId metric startYear endYear = Thrown e).
Proof.
  split.
  - unfold apiQuery.
    destruct (getProperty (queryFunctions ds) functionName)
      as [config | key |] eqn:E; cbn [isUndefined].
    + apply getProperty_registry_Own in E. cbn [attempt].
      destruct (parse (schema config) params) as [validated | issues] eqn:P;
        [| discriminate].
      destruct (function config validated) as [r | e] eqn:F; [discriminate |].
      intros _. right.
      destruct (string_dec functionName "getTrend") as [-> | N].
      * split; [reflexivity |].
        assert (config = mkConfig (callGetTrend ds) getTrendSchema
                  "Get trend data for an entity metric over a time period")
          as ->.
        { apply registered_config in E. destruct E as [E _].
          change (getProperty (queryFunctions ds) "getTrend")
            with (Own (mkConfig (callGetTrend ds) getTrendSchema
                    "Get trend data for an entity metric over a time period"))
            in E.
          now injection E. }
        cbn [schema function] in P, F.
        destruct (parse_getTrendSchema _ _ P)
          as (entityId & metric & startYear & endYear & ->).
        rewrite callGetTrend_typed in F.
        destruct (getTrend ds entityId metric startYear endYear) as [t | e']
          eqn:G; [discriminate |].
        now exists entityId, metric, startYear, endYear, e'.
      * exfalso.
        destruct (call_returns_or_illTyped ds _ _ validated E N) as [[r H] | H].
        -- congruence.
        -- exact (validated_params_are_typed ds _ _ _ _ E P H).
    + intros _. left. apply (getProperty_registry_Inherited ds).
      now exists key.
    + discriminate.
  - intros [H | (-> & entityId & metric & startYear & endYear & e & P & G)].
    + apply (getProperty_registry_Inherited ds) in H. destruct H as [key H].
      unfold apiQuery. rewrite H. reflexivity.
    + unfold apiQuery.
      change (getProperty (queryFunctions ds) "getTrend")
        with (Own (mkConfig (callGetTrend ds) getTrendSchema
                "Get trend data for an entity metric over a time period")).
      cbn [isUndefined attempt schema function]. rewrite P.
      rewrite callGetTrend_typed, G. reflexivity.
Qed.

(** X10: a call whose arguments have the declared types goes through
    [/api/query] unchanged: the reply is 200 with exactly what the
    function returns on those arguments.  An omitted [limit] is the
    number 10; omitted [metricNames] and year bounds stay omitted; for
    [getTrend] the reply is 500 when the function throws. *)
Theorem apiQuery_answers_typed_calls (ds : Dataset) :
  (forall entityType entityId,
     apiQuery ds "getEntity" (getEntityParams entityType entityId)
     = mkResponse 200
         (Some (EntityResult (getEntity ds entityType entityId))) None None) /\
  (forall entityType query limit,
     acceptedNumber limit ->
     apiQuery ds "searchEntities" (searchEntitiesParams entityType query limit)
     = mkResponse 200
         (Some (EntitiesResult
                  (searchEntities ds entityType query
                     (match limit with Some l => l | None => 10%float end))))
         None None) /\
  (forall entityType entityId metricNames,
     apiQuery ds "getMetrics" (getMetricsParams entityType entityId metricNames)
     = mkResponse 200
         (Some (MetricsResult (getMetrics ds entityType entityId metricNames)))
         None None) /\
  (forall entityType entityIdA entityIdB metric,
     apiQuery ds "compareEntities"
       (compareEntitiesParams entityType entityIdA entityIdB metric)
     = mkResponse 200
         (Some (ComparisonResult
                  (compareEntities ds entityType entityIdA entityIdB metric)))
         None None) /\
  (forall entityId metric startYear endYear,
     acceptedNumber startYear -> acceptedNumber endYear ->
     apiQuery ds "getTrend" (getTrendParams entityId metric startYear endYear)
     = trendResponse (getTrend ds entityId metric startYear endYear)) /\
  (forall entityType metric limit,
     acceptedNumber limit ->
     apiQuery ds "getTopEntities" (getTopEntitiesParams entityType metric limit)
     = mkResponse 200
         (Some (EntitiesResult
                  (getTopEntities ds entityType metric
                     (match limit with Some l => l | None => 10%float end))))
         None None).
Proof.
  repeat split.
  - intros [] entityId; reflexivity.
  - intros entityType query [f |] H; simpl in H;
      destruct entityType; unfold apiQuery; cbn -[searchEntities];
      rewrite ?H; reflexivity.
  - intros entityType entityId [l |]; destruct entityType;
      unfold apiQuery; cbn -[getMetrics];
      rewrite ?parseItems_JString by reflexivity; cbn -[getMetrics];
      rewrite ?asStrings_JString; reflexivity.
  - intros [] entityIdA entityIdB metric; reflexivity.
  - intros entityId metric [s |] [y |] Hs Hy; simpl in Hs, Hy;
      unfold apiQuery; cbn -[getTrend]; rewrite ?Hs, ?Hy; cbn -[getTrend];
      destruct (getTrend ds entityId metric _ _); reflexivity.
  - intros entityType metric [f |] H; simpl in H;
      destruct entityType; unfold apiQuery; cbn -[getTopEntities];
      rewrite ?H; reflexivity.
Qed.

(** X11: [/api/query] reads from the body only the fields that
    [/api/functions] lists for the function: two bodies that agree on
    them get the same reply, whatever other keys they carry. *)
Theorem apiQuery_reads_declared_fields (ds : Dataset)
    (definition : FunctionDefinition) (fields fields' : list (string * json)) :
  In definition (apiFunctions ds) ->
  (forall key,
     In key (map fst (propertiesOf (fn_parameters definition))) ->
     ownProperty fields key = ownProperty fields' key) ->
  apiQuery ds (fn_name definition) (JObject fields)
  = apiQuery ds (fn_name definition) (JObject fields').
Proof.
  intros Hin Hagree. unfold apiFunctions in Hin. apply in_map_iff in Hin.
  destruct Hin as ([name config] & <- & Hin).
  destruct (registered_config ds _ _ Hin) as (Hown & shape & d & Hschema).
  cbn [fn_name fn_parameters] in *. unfold apiQuery. rewrite Hown.
  cbn [isUndefined attempt]. rewrite Hschema in *.
  rewrite zodToJsonSchema_object in Hagree. cbn [propertiesOf] in Hagree.
  rewrite map_map in Hagree. cbn [fst] in Hagree.
  cbn [parse]. rewrite (parseShape_ext parse fields fields' shape Hagree).
  reflexivity.
Qed.

Lemma apiQuery_reads_declared_fields_witness :
  apiQuery MockData.data "getEntity"
    (JObject [ ("verbose", JBool true); ("entityType", JString "author");
               ("entityId", JString "auth_001") ])
  = apiQuery MockData.data "getEntity"
      (JObject [ ("entityId", JString "auth_001");
                 ("entityType", JString "author"); ("limit", JNumber 3) ]).
Proof.
  apply (apiQuery_reads_declared_fields MockData.data
           (mkFunctionDefinition "getEntity"
              "Retrieve a specific entity (author, institution, or journal) by its unique identifier"
              (zodToJsonSchema getEntitySchema))).
  - left. reflexivity.
  - intros key Hkey. simpl in Hkey.
    destruct Hkey as [<- | [<- | []]]; reflexivity.
Defined.

(** X12: what [/api/functions] lists as required, [/api/query] enforces: a
    body in which a required field is missing or undefined is answered
    with 400 [Invalid parameters], and the details hold an issue whose
    path starts at that field. *)
Theorem apiQuery_enforces_required (ds : Dataset)
    (definition : FunctionDefinition) (key : string)
    (fields : list (string * json)) :
  In definition (apiFunctions ds) ->
  In key (requiredOf (fn_parameters definition)) ->
  Params.field (JObject fields) key = JUndefined ->
  exists issue issues rest,
    apiQuery ds (fn_name definition) (JObject fields)
    = mkResponse 400 None (Some "Invalid parameters") (Some issues) /\
    In issue issues /\ path issue = Key key :: rest.
Proof.
  intros Hin Hreq Hmissing. unfold apiFunctions in Hin.
  apply in_map_iff in Hin. destruct Hin as ([name config] & <- & Hin).
  destruct (registered_config ds _ _ Hin) as (Hown & shape & d & Hschema).
  cbn [fn_name fn_parameters] in *. rewrite Hschema in Hreq.
  apply zodToJsonSchema_required in Hreq.
  destruct Hreq as (fieldSchema & Hfield & Hopt).
  unfold isOptional in Hopt.
  destruct (parse fieldSchema JUndefined) as [v | here] eqn:P;
    [discriminate |].
  destruct here as [| issue here]; [now apply parse_invalid_nonempty in P |].
  rewrite <- Hmissing in P.
  pose proof (parseShape_reports fields shape key fieldSchema issue _
                Hfield P (or_introl eq_refl)) as Hrep.
  unfold apiQuery. rewrite Hown. cbn [isUndefined attempt].
  rewrite Hschema. cbn [parse].
  destruct (parseShape parse fields shape) as [values issues].
  cbn [snd] in Hrep. destruct issues as [| i issues]; [contradiction |].
  exists (underPath (Key key) issue), (i :: issues), (path issue).
  split; [reflexivity |]. split; [assumption | reflexivity].
Qed.

Lemma apiQuery_enforces_required_witness :
  exists issue issues rest,
    apiQuery MockData.data "compareEntities"
      (JObject [ ("entityType", JString "author");
                 ("entityIdA", JString "auth_001");
                 ("entityIdB", JString "auth_002") ])
    = mkResponse 400 None (Some "Invalid parameters") (Some issues) /\
    In issue issues /\ path issue = Key "metric" :: rest.
Proof.
  apply (apiQuery_enforces_required MockData.data
           (mkFunctionDefinition "compareEntities"
              "Compare two entities on a specific metric and get the difference"
              (zodToJsonSchema compareEntitiesSchema))).
  - right. right. right. left. reflexivity.
  - simpl. tauto.
  - reflexivity.
Defined.

(** X13: in the listing of [/api/functions] a field shows the description
    the registry declares for it exactly when the field is required.  The
    descriptions of [limit], [metricNames], [startYear] and [endYear]
    are declared on the [.optional()] / [.default()] wrapper, which the
    conversion unwraps without reading it, so they are not shown. *)
Theorem apiFunctions_drops_optional_descriptions (ds : Dataset)
    (name : string) (config : QueryConfig) (key : string)
    (fieldSchema : ZodType) :
  In (name, config) (queryFunctions ds) ->
  In (key, fieldSchema) (shapeOf (schema config)) ->
  declaredDescription fieldSchema <> None /\
  (isOptional fieldSchema = false ->
   renderedDescription (zodToJsonSchema fieldSchema)
   = declaredDescription fieldSchema) /\
  (isOptional fieldSchema = true ->
   renderedDescription (zodToJsonSchema fieldSchema) = None).
Proof.
  intros Hin Hf. simpl in Hin.
  repeat (destruct Hin as [[= <- <-] | Hin]; [| try contradiction]);
    simpl in Hf;
    repeat (destruct Hf as [[= <- <-] | Hf]; [| try contradiction]);
    (split; [discriminate |]); split; intros H;
    first [ reflexivity | discriminate H ].
Qed.

Lemma apiFunctions_drops_optional_descriptions_witness :
  declaredDescription
    (ZodDefault (ZodOptional (ZodNumber None) None) (JNumber 10)
       (Some "Maximum number of results")) <> None /\
  (isOptional
     (ZodDefault (ZodOptional (ZodNumber None) None) (JNumber 10)
        (Some "Maximum number of results")) = true ->
   renderedDescription
     (zodToJsonSchema
        (ZodDefault (ZodOptional (ZodNumber None) None) (JNumber 10)
           (Some "Maximum number of results"))) = None).
Proof.
  destruct (apiFunctions_drops_optional_descriptions MockData.data
              "searchEntities"
              (mkConfig (callSearchEntities MockData.data) searchEntitiesSchema
                 "Search for entities by name or keywords")
              "limit"
              (ZodDefault (ZodOptional (ZodNumber None) None) (JNumber 10)
                 (Some "Maximum number of results")))
    as (H1 & _ & H3).
  - right. left. reflexivity.
  - right. right. left. reflexivity.
  - split; assumption.
Defined.

(* ================================================================== *)
(** * The conversational endpoint *)
(* ================================================================== *)

(** X14: every query that [/api/chat] suggests is one [/api/query]
    answers with 200, for any message and any stored data: the
    suggestions name registered functions and their parameters pass the
    schemas. *)
Theorem apiChat_suggestions_are_answerable (ds : Dataset) (body_message : json) :
  Forall (fun query =>
            exists result,
              apiQuery ds (functionName query) (params query)
              = mkResponse 200 (Some result) None None)
         (suggestionsOf (apiChat body_message)).
Proof.
  unfold apiChat.
  destruct (jsonTruthy body_message); cbn [negb suggestionsOf];
    [| constructor].
  destruct body_message as [| | | | s | |]; cbn [suggestionsOf];
    try constructor.
  unfold chatReply.
  repeat match goal with
         | |- context [includes ?a ?b] => destruct (includes a b)
         end;
    cbn [andb suggestedQueries compareSuggestion searchSuggestion
         topSuggestion trendSuggestion helpReply];
    repeat constructor;
    cbn [functionName params]; unfold apiQuery;
    try (eexists; reflexivity).
  all: cbn -[getTrend]; unfold getTrend;
    destruct (getProperty (mockTrends ds) "auth_001");
    eexists; reflexivity.
Qed.

(** X15: [/api/chat] does not look at letter case: two messages that
    differ only in the case of their letters get the same reply. *)
Theorem apiChat_ignores_case (s t : string) :
  differOnlyInCase s t ->
  apiChat (JString s) = apiChat (JString t).
Proof.
  intros H. apply differOnlyInCase_iff in H. unfold apiChat.
  assert (String.eqb s "" = String.eqb t "") as E.
  { destruct s, t; simpl in *; try reflexivity; discriminate. }
  cbn [jsonTruthy]. rewrite E, H. reflexivity.
Qed.

Lemma apiChat_ignores_case_witness :
  apiChat (JString "Show me the TOP authors")
  = apiChat (JString "show me the top authors").
Proof.
  apply apiChat_ignores_case. apply differOnlyInCase_iff. reflexivity.
Defined.

(** X16: [/api/chat] throws, past its own status replies, exactly on a
    message that is truthy and not a string (a number other than 0, the
    value [true], an array, an object): such a value has no
    [toLowerCase].  A string never makes it throw, and a falsy message
    is answered with 400. *)
Theorem apiChat_throws_exactly (body_message : json) :
  ((exists e, apiChat body_message = Thrown e) <->
   jsonTruthy body_message = true /\ forall s, body_message <> JString s) /\
  (jsonTruthy body_message = false ->
   apiChat body_message = Returned (ChatRejected 400 "message is required")) /\
  (forall s, body_message = JString s -> s <> "" ->
   exists reply, apiChat body_message = Returned (ChatAnswered reply)).
Proof.
  split; [| split].
  - unfold apiChat. destruct body_message as [| | b | f | s | l | o];
      cbn [jsonTruthy negb].
    + split; [intros [e H]; discriminate | intros [H _]; discriminate].
    + split; [intros [e H]; discriminate | intros [H _]; discriminate].
    + destruct b; cbn [negb].
      * split; [intros _; split; [reflexivity | discriminate]
               | intros _; now eexists].
      * split; [intros [e H]; discriminate | intros [H _]; discriminate].
    + destruct (numberTruthy f); cbn [negb].
      * split; [intros _; split; [reflexivity | discriminate]
               | intros _; now eexists].
      * split; [intros [e H]; discriminate | intros [H _]; discriminate].
    + split.
      * intros [e H]. destruct (negb (negb (s =? ""))); discriminate.
      * intros [_ H]. now elim (H s).
    + split; [intros _; split; [reflexivity | discriminate]
             | intros _; now eexists].
    + split; [intros _; split; [reflexivity | discriminate]
             | intros _; now eexists].
  - intros H. unfold apiChat. now rewrite H.
  - intros s -> Hs. unfold apiChat. cbn [jsonTruthy].
    destruct (String.eqb_spec s "") as [-> | _]; [now elim Hs |].
    cbn [negb]. now eexists.
Qed.

(* ================================================================== *)
(** * The stored trends ([mockTrends] in [src/data/mockData.ts]) *)
(* ================================================================== *)

Section Chronology.

Lemma StronglySorted_filter (keep : TrendPoint -> bool)
    (points : list TrendPoint) :
  StronglySorted earlier points -> StronglySorted earlier (filter keep points).
Proof.
  induction 1 as [| p points Hs IH Hall]; simpl; [constructor |].
  destruct (keep p); [| assumption].
  constructor; [assumption |].
  rewrite Forall_forall in *. intros q Hq. apply filter_In in Hq.
  now apply Hall.
Qed.

Lemma StronglySorted_strictlyAscending (points : list TrendPoint) :
  StronglySorted earlier points -> strictlyAscending points = true.
Proof.
  induction 1 as [| p points Hs IH Hall]; [reflexivity |].
  destruct points as [| q rest]; [reflexivity |].
  change (((year p <? year q)%float && strictlyAscending (q :: rest)) = true).
  rewrite IH, andb_true_r. now inversion Hall.
Qed.

Lemma series_chronological (v2019 v2020 v2021 v2022 v2023 : float) :
  StronglySorted earlier (MockData.series v2019 v2020 v2021 v2022 v2023).
Proof.
  unfold MockData.series.
  repeat (constructor; [| repeat constructor; reflexivity]). constructor.
Qed.

End Chronology.

(** X17: on the stored data, a series that [getTrend] returns belongs to
    a stored entity with that id, and its points are in strictly
    ascending order of year, whatever the bounds. *)
Theorem getTrend_fixture_series (entityId metric : string)
    (startYear endYear : option float) (points : list TrendPoint) :
  getTrend MockData.data entityId metric startYear endYear
  = Returned (Some (Series points)) ->
  (exists entityType e,
     getEntity MockData.data entityType entityId = Some e /\
     id e = entityId) /\
  strictlyAscending points = true.
Proof.
  intros H. unfold getTrend, filterByYears in H.
  destruct (getProperty (mockTrends MockData.data) entityId)
    as [stored | key |] eqn:E.
  - rewrite !filterIfGiven_series in H. injection H as <-.
    assert ((exists entityType e,
               getEntity MockData.data entityType entityId = Some e /\
               id e = entityId) /\
            StronglySorted earlier stored) as [Hentity Hsorted].
    { unfold getProperty in E.
      cbn [mockTrends MockData.data ownProperty] in E.
      destruct (String.eqb_spec "auth_001" entityId) as [<- | _].
      { injection E as <-. split; [| apply series_chronological].
        exists author, MockData.auth_001. split; reflexivity. }
      destruct (String.eqb_spec "inst_001" entityId) as [<- | _].
      { injection E as <-. split; [| apply series_chronological].
        exists institution, MockData.inst_001. split; reflexivity. }
      destruct (String.eqb_spec "jour_001" entityId) as [<- | _].
      { injection E as <-. split; [| apply series_chronological].
        exists journal, MockData.jour_001. split; reflexivity. }
      cbv beta iota in E. revert E.
      destruct (inPrototype entityId); intros E; discriminate E. }
    split; [assumption |].
    apply StronglySorted_strictlyAscending.
    destruct (effectiveBound endYear), (effectiveBound startYear);
      repeat apply StronglySorted_filter; assumption.
  - revert H. rewrite filterIfGiven_builtin.
    destruct (effectiveBound startYear); [intros H; discriminate H |].
    rewrite filterIfGiven_builtin.
    destruct (effectiveBound endYear); intros H; discriminate H.
  - discriminate H.
Qed.

Lemma getTrend_fixture_series_witness :
  (exists entityType e,
     getEntity MockData.data entityType "jour_001" = Some e /\
     id e = "jour_001") /\
  strictlyAscending
    [ mkTrendPoint 2021 945; mkTrendPoint 2022 978; mkTrendPoint 2023 1012 ]
  = true.
Proof.
  apply (getTrend_fixture_series "jour_001" "publications" (Some 2021%float) None).
  reflexivity.
Defined.

(* ================================================================== *)
(** * Swapped arguments and growing limits *)
(* ================================================================== *)

(** X18: whether two entities can be compared does not depend on the
    order in which they are given: when [compareEntities] answers for A
    and B it answers for B and A, with the two compared entities (id,
    name and value) changing places. *)
Theorem compareEntities_swapped_arguments (ds : Dataset)
    (entityType : EntityType) (entityIdA entityIdB metric : string)
    (r : Comparison) :
  compareEntities ds entityType entityIdA entityIdB metric = Some r ->
  exists r',
    compareEntities ds entityType entityIdB entityIdA metric = Some r' /\
    entityA r' = entityB r /\ entityB r' = entityA r.
Proof.
  rewrite !compareEntities_cases.
  destruct (getEntity ds entityType entityIdA) as [a |]; [| discriminate].
  destruct (getEntity ds entityType entityIdB) as [b |]; [| discriminate].
  rewrite (orb_comm (isUndefined (getProperty (metrics b) metric))).
  destruct (_ || _); [discriminate |]. intros [= <-].
  eexists. split; [reflexivity |]. split; reflexivity.
Qed.

Lemma compareEntities_swapped_arguments_witness :
  exists r',
    compareEntities MockData.data institution "inst_002" "inst_001" "citations"
    = Some r' /\
    entityA r'
    = entityB (comparisonOf MockData.inst_001 MockData.inst_002 "citations") /\
    entityB r'
    = entityA (comparisonOf MockData.inst_001 MockData.inst_002 "citations").
Proof.
  apply (compareEntities_swapped_arguments MockData.data institution
           "inst_001" "inst_002" "citations").
  reflexivity.
Defined.

Lemma firstn_extends {A : Type} (l : list A) (m n : nat) :
  m <= n -> exists more, firstn n l = firstn m l ++ more.
Proof.
  intros H. exists (skipn m (firstn n l)).
  rewrite <- (firstn_skipn m (firstn n l)) at 1.
  rewrite firstn_firstn, Nat.min_l by assumption. reflexivity.
Qed.

(** X19: raising the limit only adds results at the end: for limits
    whose integer parts are [0 <= m <= n], what [searchEntities] and
    [getTopEntities] return for the smaller limit is the beginning of what
    they return for the larger one. *)
Theorem raising_limit_extends_results (ds : Dataset) (entityType : EntityType)
    (query metric : string) (limit limit' : float) (m n : Z) :
  toIntegerOrInfinity limit = Finite m ->
  toIntegerOrInfinity limit' = Finite n ->
  (0 <= m <= n)%Z ->
  (exists more,
     searchEntities ds entityType query limit'
     = searchEntities ds entityType query limit ++ more) /\
  (exists more,
     getTopEntities ds entityType metric limit'
     = getTopEntities ds entityType metric limit ++ more).
Proof.
  intros Hm Hn Hle. unfold searchEntities, getTopEntities.
  rewrite !(sliceFromStart_nonnegative _ limit m Hm) by lia.
  rewrite !(sliceFromStart_nonnegative _ limit' n Hn) by lia.
  split; apply firstn_extends; lia.
Qed.

Lemma raising_limit_extends_results_witness :
  (exists more,
     searchEntities MockData.data author "dr" 2.5%float
     = searchEntities MockData.data author "dr" 1%float ++ more) /\
  (exists more,
     getTopEntities MockData.data author "hIndex" 2.5%float
     = getTopEntities MockData.data author "hIndex" 1%float ++ more).
Proof.
  apply (raising_limit_extends_results MockData.data author "dr" "hIndex"
           1%float 2.5%float 1 2).
  - vm_compute. reflexivity.
  - vm_compute. reflexivity.
  - lia.
Defined.
